(** * Shallow embedding of the cosinnus-cloud Nextcloud bridge

    Sources embedded here:
    - [src/cosinnus_cloud/hooks.py]: [submit_with_retry], [nc_req_callback],
      [get_nc_user_id], the user receivers, [create_user_from_obj],
      [generate_group_nextcloud_field], [group_created_sub],
      [group_cloud_app_activated_sub], [rename_nextcloud_groupfolder_on_group_rename]
      and its [post_save] connections, [initialize_nextcloud_for_group];
    - [src/cosinnus_cloud/utils/nextcloud.py]: [_response_or_raise],
      [add_user_to_group], [create_group], [create_group_folder],
      [rename_group_and_group_folder], [list_group_folder_files],
      [list_user_group_folders_files], [list_all_users],
      [parse_cloud_files_search_response];
    - [src/cosinnus_cloud/management/commands]: the [handle] methods of
      [sync_nextcloud_users] and [sync_nextcloud_groups];
    - [src/cosinnus_cloud/dashboard.py]: [Latest.get_data];
      [src/cosinnus_cloud/views.py]: [get_items_from_dataset];
      [src/cosinnus_cloud/models.py]: [CloudFile.__init__].

    Python strings are modelled as Rocq [string]s over ASCII characters;
    Python exceptions as the constructors of [exn]; the remote server's
    answers as explicit inputs of the functions that issue the requests.
    Every [group.save(update_fields=...)] runs the rename hook that
    [hooks.py] connects to Django's [post_save] signal. *)

From Stdlib Require Import ZArith List Bool Ascii String Lia.
From Stdlib Require Import Numbers.DecimalString DecimalNat Lists.Finite Floats.
Import ListNotations.
Open Scope string_scope.

(** ** JSON values as decoded by [requests_response.json()] *)

Set Warnings "-register-all".

Inductive json : Type :=
| JNull
| JBool (b : bool)
| JInt (z : Z)
| JFloat (f : float)
| JStr (s : string)
| JList (l : list json)
| JObj (kv : list (string * json)).

(** ** Python exceptions raised along the modelled paths *)

Inductive exn : Type :=
| HTTPError                        (* requests' raise_for_status *)
| OCSException (statuscode : Z) (message : json)
| ValueError (message : string)
| IndexError
| KeyError (key : string)
| TypeError
| AttributeError
| DoesNotExist                     (* Django's refresh_from_db on a missing row *)
| OtherError (what : string).      (* any other exception *)

(** A Python call either returns a value or raises. *)
Inductive result (A : Type) : Type :=
| Ok (v : A)
| Raise (e : exn).
Arguments Ok {A} v.
Arguments Raise {A} e.

Definition bind {A B} (r : result A) (f : A -> result B) : result B :=
  match r with
  | Ok v => f v
  | Raise e => Raise e
  end.

Notation "x <- r ;; k" := (bind r (fun x => k))
  (at level 61, r at next level, right associativity).

(** ** Retry executor ([hooks.py], [submit_with_retry], [nc_req_callback]) *)

Module Retry.

(** Observable events of one submitted task. *)
Inductive event : Type :=
| Attempt (n : nat)                       (* [fn( *args, **kwargs)] is called *)
| LogRetry (delay : Z) (tries_left : nat) (* "failed. Retrying in %ds (%d tries left)" *)
| Sleep (delay : Z)                       (* [sleep(delay)] *)
| LogGiveUp                               (* "failed. Giving up" *)
| LogCallbackException                    (* [logger.exception] in [nc_req_callback] *)
| LogCallbackResult.                      (* [logger.debug] in [nc_req_callback] *)

Section ExecWithRetry.

(** The submitted callable, with its arguments bound: the outcome of its
    [n]-th call (counting from 0). *)
Variable A : Type.
Variable fn : nat -> result A.

(** The [while True] loop of [exec_with_retry]: [retry_wait] is the list
    consumed by [pop(0)], [n] the number of calls made so far. *)
Fixpoint exec_loop (retry_wait : list Z) (n : nat) : result A * list event :=
  match fn n with
  | Ok v => (Ok v, [Attempt n])
  | Raise e =>
      match retry_wait with
      | [] => (Raise e, [Attempt n; LogGiveUp])      (* IndexError -> raise e *)
      | delay :: rest =>
          let '(r, evs) := exec_loop rest (S n) in
          (r, Attempt n :: LogRetry delay (List.length rest) :: Sleep delay :: evs)
      end
  end.

Definition default_retry_wait : list Z := [2; 5; 10; 30; 60; 300]%Z.

Definition exec_with_retry : result A * list event :=
  exec_loop default_retry_wait 0.

(** [nc_req_callback]: [future.result()] re-raises the task's exception,
    which the callback catches ([except Exception]) and logs. *)
Definition nc_req_callback (future : result A) : list event :=
  match future with
  | Raise _ => [LogCallbackException]
  | Ok _ => [LogCallbackResult]
  end.

(** [submit_with_retry] as seen from the submitting thread and from the
    worker: the caller receives Python's [None] ([tt]); whatever the task
    does is only visible in the worker's event trace. *)
Definition submit_with_retry_sched (retry_wait : list Z) : unit * list event :=
  let '(future, evs) := exec_loop retry_wait 0 in
  (tt, (evs ++ nc_req_callback future)%list).

Definition submit_with_retry : unit * list event :=
  submit_with_retry_sched default_retry_wait.

End ExecWithRetry.

Definition is_attempt (e : event) : bool :=
  match e with Attempt _ => true | _ => false end.

Definition attempts (evs : list event) : nat := List.length (filter is_attempt evs).

End Retry.

(** ** Python string operations used by the name generator (ASCII) *)

Module PyStr.

Definition code (c : ascii) : nat := nat_of_ascii c.

(** [str.isspace] on one ASCII character: \t \n \v \f \r, \x1c-\x1f, space. *)
Definition is_space (c : ascii) : bool :=
  let n := code c in (Nat.leb 9 n) && (Nat.leb n 13) || (Nat.leb 28 n) && (Nat.leb n 32).

Definition is_digit (c : ascii) : bool :=
  let n := code c in (Nat.leb 48 n) && (Nat.leb n 57).

Definition is_upper (c : ascii) : bool :=
  let n := code c in (Nat.leb 65 n) && (Nat.leb n 90).

Definition is_lower (c : ascii) : bool :=
  let n := code c in (Nat.leb 97 n) && (Nat.leb n 122).

(** [\w] of Python's [re] on ASCII: letters, digits and underscore. *)
Definition is_word (c : ascii) : bool :=
  is_upper c || is_lower c || is_digit c || Ascii.eqb c "_".

Fixpoint lstrip (s : string) : string :=
  match s with
  | EmptyString => EmptyString
  | String c s' => if is_space c then lstrip s' else s
  end.

Definition rev_str (s : string) : string := string_of_list_ascii (rev (list_ascii_of_string s)).

Definition rstrip (s : string) : string := rev_str (lstrip (rev_str s)).

(** [str.strip()] *)
Definition strip (s : string) : string := rstrip (lstrip s).

(** [str.lower()] *)
Definition lower_char (c : ascii) : ascii :=
  if is_upper c then ascii_of_nat (code c + 32) else c.

Fixpoint lower (s : string) : string :=
  match s with
  | EmptyString => EmptyString
  | String c s' => String (lower_char c) (lower s')
  end.

(** [s.replace(pat, rep)] for a non-empty [pat]: leftmost, non-overlapping
    occurrences; [skip] counts the characters of a match already consumed. *)
Fixpoint replace_go (pat rep : string) (skip : nat) (s : string) : string :=
  match s with
  | EmptyString => EmptyString
  | String c s' =>
      match skip with
      | S k => replace_go pat rep k s'
      | O => if String.prefix pat s
             then rep ++ replace_go pat rep (String.length pat - 1) s'
             else String c (replace_go pat rep 0 s')
      end
  end.

Definition replace (s pat rep : string) : string := replace_go pat rep 0 s.

(** [s.replace(old, new, 1)]: the first occurrence only; an empty [old]
    occurs at the start. *)
Fixpoint replace_first (s old new : string) : string :=
  if String.prefix old s
  then new ++ substring (String.length old) (String.length s - String.length old) s
  else match s with
       | EmptyString => EmptyString
       | String c s' => String c (replace_first s' old new)
       end.

(** [re.sub(r"(?u)[^\w-]", "", s)] *)
Fixpoint keep_word_or_dash (s : string) : string :=
  match s with
  | EmptyString => EmptyString
  | String c s' =>
      if is_word c || Ascii.eqb c "-" then String c (keep_word_or_dash s')
      else keep_word_or_dash s'
  end.

(** [s[:n]] *)
Definition take (n : nat) (s : string) : string := substring 0 n s.

(** ["%d" % n] for a natural number *)
Definition show_nat (n : nat) : string := NilEmpty.string_of_uint (Nat.to_uint n).

(** [s.endswith(suffix)] *)
Definition endswith (s suffix : string) : bool :=
  String.prefix (rev_str suffix) (rev_str s).

(** [s.startswith(prefix)] *)
Definition startswith (s pre : string) : bool := String.prefix pre s.

Fixpoint all_digits (s : string) : bool :=
  match s with
  | EmptyString => true
  | String c s' => is_digit c && all_digits s'
  end.

(** [x in xs] for a list of strings *)
Definition mem (x : string) (xs : list string) : bool := existsb (String.eqb x) xs.

End PyStr.

(** ** Groups and the name generator ([hooks.py], [generate_group_nextcloud_field]) *)

Module NameGen.
Import PyStr.

(** Cosinnus group types ([TYPE_PROJECT], [TYPE_SOCIETY], [TYPE_CONFERENCE]). *)
Inductive group_type : Type := TypeProject | TypeSociety | TypeConference.

Definition group_type_eqb (a b : group_type) : bool :=
  match a, b with
  | TypeProject, TypeProject | TypeSociety, TypeSociety
  | TypeConference, TypeConference => true
  | _, _ => false
  end.

(** The fields of a cosinnus group read or written by this app; [gid] is the
    Django primary key [id]. *)
Record group : Type := mkGroup {
  gid : Z;
  name : string;
  type : group_type;
  deactivated_apps : list string;
  nextcloud_group_id : option string;
  nextcloud_groupfolder_name : option string;
  nextcloud_groupfolder_id : option Z
}.

(** The two fields a unique name can be generated for. *)
Inductive field : Type := F_nextcloud_group_id | F_nextcloud_groupfolder_name.

Definition getattr (g : group) (f : field) : option string :=
  match f with
  | F_nextcloud_group_id => nextcloud_group_id g
  | F_nextcloud_groupfolder_name => nextcloud_groupfolder_name g
  end.

Definition set_field (g : group) (f : field) (v : option string) : group :=
  match f with
  | F_nextcloud_group_id =>
      mkGroup (gid g) (name g) (type g) (deactivated_apps g) v
        (nextcloud_groupfolder_name g) (nextcloud_groupfolder_id g)
  | F_nextcloud_groupfolder_name =>
      mkGroup (gid g) (name g) (type g) (deactivated_apps g) (nextcloud_group_id g)
        v (nextcloud_groupfolder_id g)
  end.

Definition setattr (g : group) (f : field) (v : string) : group := set_field g f (Some v).

(** [group.nextcloud_groupfolder_id = v] *)
Definition set_groupfolder_id (g : group) (v : option Z) : group :=
  mkGroup (gid g) (name g) (type g) (deactivated_apps g) (nextcloud_group_id g)
    (nextcloud_groupfolder_name g) v.

(** Python truthiness of an optional string: [None] and [""] are false. *)
Definition truthy_str (v : option string) : bool :=
  match v with
  | Some s => negb (String.eqb s "")
  | None => false
  end.

(** The database table of groups, one row per group. *)
Definition db := list group.

(** [group.save(update_fields=[...])]: [copy] writes the listed fields of
    the object onto its row; Django raises when no row has that primary key. *)
Definition db_update (d : db) (g : group) (copy : group -> group) : result db :=
  if existsb (fun r => Z.eqb (gid r) (gid g)) d then
    Ok (map (fun r => if Z.eqb (gid r) (gid g) then copy r else r) d)
  else Raise (OtherError "DatabaseError: Save with update_fields did not affect any rows.").

(** The name of a field in [update_fields]. *)
Definition field_name (f : field) : string :=
  match f with
  | F_nextcloud_group_id => "nextcloud_group_id"
  | F_nextcloud_groupfolder_name => "nextcloud_groupfolder_name"
  end.

(** The value of the field named [fname] of the object [g], written onto
    the row [r]; the app saves no other fields. *)
Definition copy_field (g : group) (fname : string) (r : group) : group :=
  if String.eqb fname "nextcloud_group_id" then
    set_field r F_nextcloud_group_id (nextcloud_group_id g)
  else if String.eqb fname "nextcloud_groupfolder_name" then
    set_field r F_nextcloud_groupfolder_name (nextcloud_groupfolder_name g)
  else if String.eqb fname "nextcloud_groupfolder_id" then
    set_groupfolder_id r (nextcloud_groupfolder_id g)
  else r.

(** The row update of [group.save(update_fields=update_fields)]. *)
Definition copy_fields (g : group) (update_fields : list string) (r : group) : group :=
  fold_left (fun r fname => copy_field g fname r) update_fields r.

(** [group.refresh_from_db()]: the object takes the values of its row. *)
Fixpoint refresh_from_db (d : db) (g : group) : result group :=
  match d with
  | [] => Raise DoesNotExist
  | r :: d' => if Z.eqb (gid r) (gid g) then Ok r else refresh_from_db d' g
  end.

(** [.objects.filter(field__istartswith=pre).exclude(id=g.id)
    .values_list(field, flat=True)]: [NULL] never matches [istartswith]. *)
Fixpoint query_istartswith (d : db) (f : field) (pre : string) (self : Z) : list string :=
  match d with
  | [] => []
  | r :: d' =>
      match getattr r f with
      | Some v =>
          if startswith (lower v) (lower pre) && negb (Z.eqb (gid r) self)
          then v :: query_istartswith d' f pre self
          else query_istartswith d' f pre self
      | None => query_istartswith d' f pre self
      end
  end.

Section Generator.

(** [settings.COSINNUS_CLOUD_PREFIX_GROUP_FOLDERS] *)
Variable PREFIX_GROUP_FOLDERS : bool.
(** [cosinnus.utils.functions.is_number], a function of the cosinnus core
    package (not of this repository); only its behaviour on digit strings
    matters below, where it is assumed to answer [True]. *)
Variable is_number : string -> bool.

(** Lines 155-157: strip, protect spaces, drop non-word characters, restore. *)
Definition filter_name (n : string) : string :=
  let s := replace (strip n) " " "-----" in
  let s := keep_word_or_dash s in
  strip (replace s "-----" " ").

(** Lines 155-168: the candidate name before collision resolution. *)
Definition candidate_name (g : group) : string :=
  let filtered_name := filter_name (name g) in
  let filtered_name :=
    if PREFIX_GROUP_FOLDERS then
      (if group_type_eqb (type g) TypeSociety then "G - " else "P - ")
        ++ " " ++ filtered_name
    else if String.eqb filtered_name "" || is_number filtered_name
    then "Folder" ++ filtered_name
    else filtered_name in
  take 64 filtered_name.

(** The [while] loop of lines 182-186. The Python loop stops at the first
    free candidate; at most [List.length all_names] candidates can collide,
    so starting with that much fuel the fuel never runs out
    ([uniq_loop_free] below). *)
Fixpoint uniq_loop (all_names : list string) (filtered_name : string)
    (fuel counter : nat) (unique_name : string) : string :=
  if mem (lower unique_name) all_names then
    match fuel with
    | O => unique_name
    | S fuel' =>
        uniq_loop all_names filtered_name fuel' (S counter)
          (filtered_name ++ " " ++ show_nat counter)
    end
  else unique_name.

(** Lines 171-180: the lower-cased names of the other groups plus "admin". *)
Definition excluded_names (d : db) (g : group) (f : field) (filtered_name : string)
  : list string :=
  (map lower (query_istartswith d f filtered_name (gid g)) ++ ["admin"])%list.

(** Lines 151-186: the unique name [generate_group_nextcloud_field]
    generates for [f] (the part before [setattr] and the optional save,
    which are written with the function in [Hooks] below). *)
Definition generated_name (d : db) (g : group) (f : field) : string :=
  let filtered_name := candidate_name g in
  let all_names := excluded_names d g f filtered_name in
  uniq_loop all_names filtered_name (List.length all_names) 2 filtered_name.

End Generator.

End NameGen.

(** ** The OCS client ([utils/nextcloud.py]) *)

Module Ocs.
Import PyStr NameGen.

(** Python truthiness of a decoded JSON value. *)
Definition truthy (j : json) : bool :=
  match j with
  | JNull => false
  | JBool b => b
  | JInt z => negb (Z.eqb z 0)
  | JFloat f => negb (PrimFloat.eqb f 0)
  | JStr s => negb (String.eqb s "")
  | JList l => match l with [] => false | _ => true end
  | JObj kv => match kv with [] => false | _ => true end
  end.

(** [j == True]: [True] equals [True], [1] and [1.0]. *)
Definition eq_true (j : json) : bool :=
  match j with
  | JBool b => b
  | JInt z => Z.eqb z 1
  | JFloat f => PrimFloat.eqb f 1
  | _ => false
  end.

Fixpoint assoc (k : string) (kv : list (string * json)) : option json :=
  match kv with
  | [] => None
  | (k', v) :: kv' => if String.eqb k k' then Some v else assoc k kv'
  end.

(** [j[k]] *)
Definition getitem (j : json) (k : string) : result json :=
  match j with
  | JObj kv => match assoc k kv with Some v => Ok v | None => Raise (KeyError k) end
  | _ => Raise TypeError
  end.

(** [j.get(k)] *)
Definition get (j : json) (k : string) : result json :=
  match j with
  | JObj kv => match assoc k kv with Some v => Ok v | None => Ok JNull end
  | _ => Raise AttributeError
  end.

(** [j.values()] *)
Definition values (j : json) : result (list json) :=
  match j with
  | JObj kv => Ok (map snd kv)
  | _ => Raise AttributeError
  end.

(** [int(s)] for a string: surrounding whitespace, an optional sign, then
    decimal digits (Python's digit-group underscores are not accepted here). *)
Definition int_of_string (s : string) : result Z :=
  let s := strip s in
  let '(sign, digits) :=
    match s with
    | String "-" t => ((-1)%Z, t)
    | String "+" t => (1%Z, t)
    | _ => (1%Z, s)
    end in
  match digits with
  | EmptyString => Raise (ValueError "invalid literal for int()")
  | _ => match NilEmpty.uint_of_string digits with
         | Some u => Ok (sign * Z.of_uint u)%Z
         | None => Raise (ValueError "invalid literal for int()")
         end
  end.

(** [int(f)] for a float: truncation towards zero. *)
Definition float_trunc (f : float) : result Z :=
  match Prim2SF f with
  | S754_zero _ => Ok 0%Z
  | S754_infinity _ => Raise (OtherError "OverflowError: cannot convert float infinity to integer")
  | S754_nan => Raise (ValueError "cannot convert float NaN to integer")
  | S754_finite s m e =>
      let a := if Z.leb 0 e then Z.shiftl (Zpos m) e else Z.shiftr (Zpos m) (- e) in
      Ok (if s then - a else a)%Z
  end.

(** [int(j)] *)
Definition py_int (j : json) : result Z :=
  match j with
  | JInt z => Ok z
  | JBool b => Ok (if b then 1 else 0)%Z
  | JFloat f => float_trunc f
  | JStr s => int_of_string s
  | _ => Raise TypeError
  end.

(** An HTTP answer of the Nextcloud server: [requests_response.ok], its
    text, and its body decoded as JSON when it is JSON. *)
Record http_response : Type := mkResponse {
  http_ok : bool;
  text : string;
  body : option json
}.

(** The requests issued by the modelled functions. *)
Inductive request : Type :=
| PostGroups (groupid : string)
| GetFolders
| PostFolders (mountpoint : string)
| PostFolderGroups (folder_id : json) (group : string)
| PostFolderQuota (folder_id : json) (quota : Z)
| PostFolderMountpoint (folder_id : Z) (mountpoint : string).

(** What the server answers to each request. *)
Definition server := request -> http_response.

(** [OCSResponse(j).status], [.statuscode], [.message], [.data] *)
Definition meta (j : json) : result json := o <- getitem j "ocs" ;; getitem o "meta".
Definition status (j : json) : result json := m <- meta j ;; getitem m "status".
Definition statuscode (j : json) : result Z := m <- meta j ;; c <- getitem m "statuscode" ;; py_int c.
Definition message (j : json) : result json := m <- meta j ;; getitem m "message".
Definition data (j : json) : result json := o <- getitem j "ocs" ;; getitem o "data".

(** [_response_or_raise]: the decoded body of an OCS answer whose status is
    "ok"; [raise_for_status()] on an HTTP error; [OCSException(-1, text)]
    when the body is not JSON; [OCSException(statuscode, message)] otherwise. *)
Definition response_or_raise (r : http_response) : result json :=
  if negb (http_ok r) then Raise HTTPError else
  match body r with
  | None => Raise (OCSException (-1) (JStr (text r)))
  | Some j =>
      st <- status j ;;
      match st with
      | JStr "ok" => Ok j
      | _ => c <- statuscode j ;; m <- message j ;; Raise (OCSException c m)
      end
  end.

(** [create_group(groupid)]: [Some] response, or [None] when the group
    already exists (OCS status code 102). *)
Definition create_group (srv : server) (groupid : string) : result (option json) :=
  match response_or_raise (srv (PostGroups groupid)) with
  | Ok j => Ok (Some j)
  | Raise (OCSException c m) =>
      if Z.eqb c 102 then Ok None else Raise (OCSException c m)
  | Raise e => Raise e
  end.

(** Effects on the platform side, in order. *)
Inductive effect : Type :=
| Req (r : request)
| Save (fields : list string)
| Refresh.

(** The outcome of a function that mutates the group object and the
    database and may raise midway: the result, the group object, the
    database and the effects performed. *)
Record outcome (A : Type) : Type := mkOutcome {
  res : result A;
  obj : group;
  rows : db;
  effects : list effect
}.
Arguments mkOutcome {A} res obj rows effects.
Arguments res {A} o.
Arguments obj {A} o.
Arguments rows {A} o.
Arguments effects {A} o.

(** [[folder for folder in folders if folder['mount_point'] == name]] *)
Fixpoint same_name_entries (name : string) (folders : list json) : result (list json) :=
  match folders with
  | [] => Ok []
  | folder :: rest =>
      mp <- getitem folder "mount_point" ;;
      others <- same_name_entries name rest ;;
      Ok (match mp with
          | JStr s => if String.eqb s name then folder :: others else others
          | _ => others
          end)
  end.

(** [not group.nextcloud_groupfolder_id] *)
Definition folder_id_missing (g : group) : bool :=
  match nextcloud_groupfolder_id g with
  | Some fid => Z.eqb fid 0
  | None => true
  end.

(** [rename_group_and_group_folder(folder_id, new_name)]: returns
    [response.data and response.data == True]. *)
Definition rename_group_and_group_folder (srv : server) (folder_id : Z) (new_name : string)
  : result json :=
  r <- response_or_raise (srv (PostFolderMountpoint folder_id new_name)) ;;
  dt <- data r ;;
  Ok (if truthy dt then JBool (eq_true dt) else dt).

End Ocs.

(** ** Saving a group: [post_save] and the rename hook ([hooks.py]) *)

Module Hooks.
Import PyStr NameGen Ocs.

Definition opt_str_eqb (a b : option string) : bool :=
  match a, b with
  | Some x, Some y => String.eqb x y
  | None, None => true
  | _, _ => false
  end.

(** Python's default recursion limit, a bound on nested [post_save]
    receivers. *)
Definition recursion_limit : nat := 1000.

Section RenameHook.
Variable PREFIX_GROUP_FOLDERS : bool.
Variable is_number : string -> bool.
Variable srv : server.

(** [group.refresh_from_db()] as the last step of the hook. *)
Definition reload (g : group) (d : db) (effs : list effect) : outcome unit :=
  match refresh_from_db d g with
  | Raise e => mkOutcome (Raise e) g d effs
  | Ok r => mkOutcome (Ok tt) r d (effs ++ [Refresh])%list
  end.

(** Lines 228-229: the cloud app is active and the group id, the folder
    name and the numeric folder id are all set. *)
Definition rename_guard (g : group) : bool :=
  negb (mem "cosinnus_cloud" (deactivated_apps g))
  && truthy_str (nextcloud_group_id g)
  && truthy_str (nextcloud_groupfolder_name g)
  && negb (folder_id_missing g).

(** [group.save(update_fields=update_fields)]: the row update, then the
    [post_save] receivers, called with [created=False] on the saved
    instance; an exception of a receiver propagates out of [save] (the row
    stays written). *)
Definition save_then (post_save : group -> db -> outcome unit) (d : db) (g : group)
    (update_fields : list string) : outcome unit :=
  match db_update d g (copy_fields g update_fields) with
  | Raise e => mkOutcome (Raise e) g d []
  | Ok d1 =>
      let o := post_save g d1 in
      mkOutcome (res o) (obj o) (rows o) (Save update_fields :: effects o)
  end.

(** [generate_group_nextcloud_field(group, field, save, force_generate)]
    (lines 140-189), for a given implementation [group_save] of
    [group.save(update_fields=...)]: the result is the name, [obj] the group
    object after [setattr] and the optional save. *)
Definition generate_with (group_save : db -> group -> list string -> outcome unit)
    (d : db) (g : group) (f : field) (save force_generate : bool) : outcome string :=
  if truthy_str (getattr g f) && negb force_generate then
    mkOutcome (Ok (match getattr g f with Some v => v | None => "" end)) g d []
  else
    let unique_name := generated_name PREFIX_GROUP_FOLDERS is_number d g f in
    let g' := setattr g f unique_name in
    if save then
      let o := group_save d g' [field_name f] in
      mkOutcome (_ <- res o ;; Ok unique_name) (obj o) (rows o) (effects o)
    else mkOutcome (Ok unique_name) g' d [].

(** The [post_save] receiver [rename_nextcloud_groupfolder_on_group_rename]
    (lines 224-246), called with [created] and the saved instance [g]; [d] is
    the database right after that save. Each of the three [post_save.connect]
    calls registers it for one sender class, and a save sends the signal for
    the instance's class only, so every save runs it once. [depth] is the
    room left on Python's stack for nested receivers. *)
Fixpoint rename_nextcloud_groupfolder_on_group_rename (depth : nat) (created : bool)
    (g : group) (d : db) : outcome unit :=
  match depth with
  | O => mkOutcome (Raise (OtherError "RecursionError: maximum recursion depth exceeded")) g d []
  | S depth' =>
  let group_save := save_then (rename_nextcloud_groupfolder_on_group_rename depth' false) in
  if created then mkOutcome (Ok tt) g d [] else
  if rename_guard g then
    let old_nextcloud_groupfolder_name := nextcloud_groupfolder_name g in
    let o := generate_with group_save d g F_nextcloud_groupfolder_name false true in
    let g1 := obj o in
    let new_nextcloud_groupfolder_name := nextcloud_groupfolder_name g1 in
    if negb (opt_str_eqb new_nextcloud_groupfolder_name old_nextcloud_groupfolder_name) then
      (* both are set here: the guard checked the id, [setattr] the name *)
      let fid := match nextcloud_groupfolder_id g1 with Some z => z | None => 0%Z end in
      let new_name := match new_nextcloud_groupfolder_name with Some u => u | None => "" end in
      let effs := [Req (PostFolderMountpoint fid new_name)] in
      match rename_group_and_group_folder srv fid new_name with
      | Raise e => mkOutcome (Raise e) g1 d effs
      | Ok (JBool true) =>                         (* [result is True] *)
          let o' := group_save d g1 ["nextcloud_groupfolder_name"] in
          mkOutcome (res o') (obj o') (rows o') (effs ++ effects o')%list
      | Ok _ => reload g1 d effs
      end
    else reload g1 d []
  else mkOutcome (Ok tt) g d []
  end.

(** [group.save(update_fields=update_fields)] from the app's code. *)
Definition group_save (d : db) (g : group) (update_fields : list string) : outcome unit :=
  save_then (rename_nextcloud_groupfolder_on_group_rename recursion_limit false) d g update_fields.

(** [generate_group_nextcloud_field] with the app's [group.save]. *)
Definition generate_group_nextcloud_field (d : db) (g : group) (f : field)
    (save force_generate : bool) : outcome string :=
  generate_with group_save d g f save force_generate.

End RenameHook.

End Hooks.

(** ** Group folders ([utils/nextcloud.py], [create_group_folder]) *)

Module OcsFolders.
Import PyStr NameGen Ocs Hooks.

Section CreateGroupFolder.
Variable PREFIX_GROUP_FOLDERS : bool.
Variable is_number : string -> bool.
(** [settings.COSINNUS_CLOUD_NEXTCLOUD_GROUPFOLDER_QUOTA] ([None] is falsy
    like [0], so both are written [0]). *)
Variable GROUPFOLDER_QUOTA : Z.
Variable srv : server.

(** [group.nextcloud_groupfolder_id = int(v)] followed by
    [group.save(update_fields=["nextcloud_groupfolder_id"])]. *)
Definition record_folder_id (g : group) (d : db) (v : json) : outcome unit :=
  match py_int v with
  | Raise e => mkOutcome (Raise e) g d []
  | Ok fid =>
      group_save PREFIX_GROUP_FOLDERS is_number srv d (set_groupfolder_id g (Some fid))
        ["nextcloud_groupfolder_id"]
  end.

(** Lines 244-266: give the group access to folder [folder_id], then set
    the quota unless it is unset or -3. *)
Definition grant_and_set_quota (folder_id : json) (group_id : string) (g : group) (d : db)
    (effs : list effect) : outcome (option json) :=
  let effs := (effs ++ [Req (PostFolderGroups folder_id group_id)])%list in
  match response_or_raise (srv (PostFolderGroups folder_id group_id)) with
  | Raise e => mkOutcome (Raise e) g d effs
  | Ok latest =>
      if negb (Z.eqb GROUPFOLDER_QUOTA 0) && negb (Z.eqb GROUPFOLDER_QUOTA (-3)) then
        let effs := (effs ++ [Req (PostFolderQuota folder_id GROUPFOLDER_QUOTA)])%list in
        match response_or_raise (srv (PostFolderQuota folder_id GROUPFOLDER_QUOTA)) with
        | Raise e => mkOutcome (Raise e) g d effs
        | Ok latest' => mkOutcome (Ok (Some latest')) g d effs
        end
      else mkOutcome (Ok (Some latest)) g d effs
  end.

(** Lines 221-266: create the folder, record its id, give the group access,
    set the quota. *)
Definition create_new_folder (name group_id : string) (g : group) (d : db)
    (effs : list effect) : outcome (option json) :=
  let effs := (effs ++ [Req (PostFolders name)])%list in
  match (r <- response_or_raise (srv (PostFolders name)) ;; dt <- data r ;; getitem dt "id") with
  | Raise e => mkOutcome (Raise e) g d effs
  | Ok folder_id =>
      if truthy folder_id then
        let o := record_folder_id g d folder_id in
        match res o with
        | Raise e => mkOutcome (Raise e) (obj o) (rows o) (effs ++ effects o)%list
        | Ok _ => grant_and_set_quota folder_id group_id (obj o) (rows o) (effs ++ effects o)%list
        end
      else (* logger.error: no folder id *)
        grant_and_set_quota folder_id group_id g d effs
  end.

(** [create_group_folder(name, group_id, group, raise_on_existing_name)] *)
Definition create_group_folder (name group_id : string) (g : group) (d : db)
    (raise_on_existing_name : bool) : outcome (option json) :=
  let effs := [Req GetFolders] in
  match (r <- response_or_raise (srv GetFolders) ;; data r) with
  | Raise e => mkOutcome (Raise e) g d effs
  | Ok folders =>
      let entries :=
        if negb (truthy folders) then Ok []
        else vs <- values folders ;; same_name_entries name vs in
      match entries with
      | Raise e => mkOutcome (Raise e) g d effs
      | Ok [] => create_new_folder name group_id g d effs
      | Ok (first :: _) =>
          let o :=
            if folder_id_missing g then
              match get first "id" with
              | Raise e => mkOutcome (Raise e) g d []
              | Ok i => record_folder_id g d i
              end
            else mkOutcome (Ok tt) g d [] in
          let effs := (effs ++ effects o)%list in
          match res o with
          | Raise e => mkOutcome (Raise e) (obj o) (rows o) effs
          | Ok _ =>
              if raise_on_existing_name
              then mkOutcome (Raise (ValueError "A groupfolder with that name already exists"))
                     (obj o) (rows o) effs
              else mkOutcome (Ok None) (obj o) (rows o) effs
          end
      end
  end.

End CreateGroupFolder.

End OcsFolders.
(** ** Provisioning: user ids, receivers and group initialisation ([hooks.py]) *)

Module Provision.
Import PyStr NameGen Ocs Hooks OcsFolders.

(** [get_nc_user_id(user)]: [f"wechange-{user.id}"] for a Django user id. *)
Definition get_nc_user_id (user_id : nat) : string := "wechange-" ++ show_nat user_id.

(** The user-side OCS requests: [create_user] (its display name, e-mail
    and random password are not tracked), [disable_user], [enable_user],
    [add_user_to_group], [remove_user_from_group], [list_all_users]. *)
Inductive user_request : Type :=
| CreateUser (userid : string)
| DisableUser (userid : string)
| EnableUser (userid : string)
| AddUserToGroup (userid groupid : string)
| RemoveUserFromGroup (userid groupid : string)
| ListUsers.

(** What the server answers to each user-side request. *)
Definition user_server := user_request -> http_response.

(** One step of a provisioning run: a platform-side effect or group-folder
    request, or a user-side request. *)
Inductive step : Type :=
| Eff (e : effect)
| UReq (r : user_request).

(** The calls handed to [submit_with_retry] by the receivers. *)
Inductive task : Type :=
| TaskAddUser (userid groupid : string)        (* nextcloud.add_user_to_group *)
| TaskRemoveUser (userid groupid : string)     (* nextcloud.remove_user_from_group *)
| TaskInitialize (group_pk : Z).               (* initialize_nextcloud_for_group *)

(** A group attribute that is known to be set, read as a string. *)
Definition attr_str (v : option string) : string :=
  match v with Some s => s | None => "" end.

(** [group.get_deactivated_apps()] with another list of apps. *)
Definition with_deactivated_apps (g : group) (apps : list string) : group :=
  mkGroup (gid g) (name g) (type g) apps (nextcloud_group_id g)
    (nextcloud_groupfolder_name g) (nextcloud_groupfolder_id g).

(** [user_joined_group_receiver_sub(sender, user, group)] *)
Definition user_joined_group_receiver_sub (user_id : nat) (g : group) : list task :=
  if negb (mem "cosinnus_cloud" (deactivated_apps g)) then
    match nextcloud_group_id g with
    | Some group_id => [TaskAddUser (get_nc_user_id user_id) group_id]
    | None => []
    end
  else [].

(** [user_left_group_receiver_sub(sender, user, group)] *)
Definition user_left_group_receiver_sub (user_id : nat) (g : group) : list task :=
  match nextcloud_group_id g with
  | Some group_id => [TaskRemoveUser (get_nc_user_id user_id) group_id]
  | None => []
  end.

(** [group_created_sub(sender, group)] *)
Definition group_created_sub (g : group) : list task :=
  if negb (mem "cosinnus_cloud" (deactivated_apps g)) then [TaskInitialize (gid g)] else [].

(** A run over the group object and the database that may raise midway:
    the result, the object, the rows and the steps performed. *)
Record run (A : Type) : Type := mkRun {
  rres : result A;
  robj : group;
  rrows : db;
  steps : list step
}.
Arguments mkRun {A} rres robj rrows steps.
Arguments rres {A} r.
Arguments robj {A} r.
Arguments rrows {A} r.
Arguments steps {A} r.

Section Initialize.
Variable PREFIX_GROUP_FOLDERS : bool.
Variable is_number : string -> bool.
Variable GROUPFOLDER_QUOTA : Z.
Variable srv : server.
Variable usrv : user_server.
(** [settings.COSINNUS_CLOUD_NEXTCLOUD_ADMIN_USERNAME] *)
Variable ADMIN_USERNAME : string.

(** [nextcloud.add_user_to_group(userid, groupid)] *)
Definition add_user_to_group (userid groupid : string) : result json :=
  response_or_raise (usrv (AddUserToGroup userid groupid)).

(** [initialize_nextcloud_for_group(group)]: both names are generated on
    the object without saving, saved together (which runs the rename hook),
    then the Nextcloud group, its folder and the admin membership are
    created for the names the object holds then. *)
Definition initialize_nextcloud_for_group (g : group) (d : db) : run unit :=
  let o1 := generate_group_nextcloud_field PREFIX_GROUP_FOLDERS is_number srv d g
              F_nextcloud_group_id false false in
  let g1 := obj o1 in
  let o2 := generate_group_nextcloud_field PREFIX_GROUP_FOLDERS is_number srv d g1
              F_nextcloud_groupfolder_name false false in
  let g2 := obj o2 in
  let o := group_save PREFIX_GROUP_FOLDERS is_number srv d g2
             ["nextcloud_group_id"; "nextcloud_groupfolder_name"] in
  let s0 := map Eff (effects o) in
  match res o with
  | Raise e => mkRun (Raise e) (obj o) (rows o) s0
  | Ok _ =>
      let g3 := obj o in
      let s1 := (s0 ++ [Eff (Req (PostGroups (attr_str (nextcloud_group_id g3))))])%list in
      match create_group srv (attr_str (nextcloud_group_id g3)) with
      | Raise e => mkRun (Raise e) g3 (rows o) s1
      | Ok _ =>
          let o' := create_group_folder PREFIX_GROUP_FOLDERS is_number GROUPFOLDER_QUOTA srv
                      (attr_str (nextcloud_groupfolder_name g3))
                      (attr_str (nextcloud_group_id g3)) g3 (rows o) false in
          let s2 := (s1 ++ map Eff (effects o'))%list in
          match res o' with
          | Raise e => mkRun (Raise e) (obj o') (rows o') s2
          | Ok _ =>
              let group_id := attr_str (nextcloud_group_id (obj o')) in
              let s3 := (s2 ++ [UReq (AddUserToGroup ADMIN_USERNAME group_id)])%list in
              match add_user_to_group ADMIN_USERNAME group_id with
              | Raise e => mkRun (Raise e) (obj o') (rows o') s3
              | Ok _ => mkRun (Ok tt) (obj o') (rows o') s3
              end
          end
      end
  end.


End Initialize.

End Provision.

(** ** Listing group folder files ([utils/nextcloud.py]) *)

Module Listing.
Import PyStr.

(** [s.split(sep)] for a non-empty [sep]. *)
Fixpoint split_go (sep : string) (skip : nat) (cur : string) (s : string) : list string :=
  match s with
  | EmptyString => [cur]
  | String c s' =>
      match skip with
      | S k => split_go sep k cur s'
      | O => if String.prefix sep s
             then cur :: split_go sep (String.length sep - 1) "" s'
             else split_go sep 0 (cur ++ String c "") s'
      end
  end.

Definition split (s sep : string) : list string := split_go sep 0 "" s.

(** [l[i]] for [i >= 0] and [l[-i]] for [i > 0] *)
Definition index (l : list string) (i : nat) : result string :=
  match nth_error l i with Some x => Ok x | None => Raise IndexError end.

Definition index_neg (l : list string) (i : nat) : result string :=
  match nth_error (rev l) (i - 1) with Some x => Ok x | None => Raise IndexError end.

(** A [<d:response>] element of the WebDAV answer as BeautifulSoup finds it:
    the text of its first [<d:href>] and of its first [<oc:fileid>], when present. *)
Record dav_response : Type := mkDavResponse {
  href : option string;
  fileid : option string
}.

(** The parsed document: the [<d:response>]s of its [<d:multistatus>]
    element, or [None] when there is no such element. *)
Definition dav_document := option (list dav_response).

(** The instance attributes of a [CloudFile] ([models.py]). *)
Record cloud_file : Type := mkCloudFile {
  title : string;
  url : string;
  download_url : string;
  type : option string;
  folder : string;
  root_folder : string;
  path : string
}.

Section Parse.
(** [settings.COSINNUS_CLOUD_NEXTCLOUD_URL], [settings.COSINNUS_CLOUD_NEXTCLOUD_ADMIN_USERNAME] *)
Variable NEXTCLOUD_URL ADMIN_USERNAME : string.
(** [urllib.parse.unquote] *)
Variable unquote : string -> string.

(** [CloudFile(title, url, download_url, type, folder, root_folder, path,
    user)] ([models.py], lines 27-43); [usr] is the id of the Django user
    [user], or [None]: with a user, the first occurrence of the admin name
    in the download link becomes the user's Nextcloud id. *)
Definition CloudFile (title url download_url : string) (type : option string)
    (folder root_folder path : string) (usr : option nat) : cloud_file :=
  mkCloudFile title url
    (match usr with
     | Some user_id => replace_first download_url ADMIN_USERNAME (Provision.get_nc_user_id user_id)
     | None => download_url
     end)
    type folder root_folder path.

(** The loop body for one [<d:response>]: [Ok None] is [continue]. *)
Definition parse_one (path_filter : option (string -> bool)) (usr : option nat)
    (r : dav_response) : result (option cloud_file) :=
  match href r with
  | None => Raise AttributeError                 (* None.get_text() *)
  | Some filepath =>
      if String.eqb filepath "" then Ok None else
      if endswith filepath "/" then Ok None else (* result is a folder *)
      let splits := split filepath "/" in
      let file_id := match fileid r with
                     | Some t => if String.eqb t "" then None else Some t
                     | None => None
                     end in
      last <- index_neg splits 1 ;;
      let filename := unquote last in
      second_last <- index_neg splits 2 ;;
      let folder_name := unquote second_last in
      actual_path <- index (split filepath ("/dav/files/" ++ ADMIN_USERNAME)) 1 ;;
      let keep := match path_filter with Some p => p actual_path | None => true end in
      if negb keep then Ok None else
      root <- index (split actual_path "/") 1 ;;
      Ok (Some (CloudFile filename
                  (NEXTCLOUD_URL ++ "/f/" ++ match file_id with Some t => t | None => "None" end)
                  (NEXTCLOUD_URL ++ filepath) None
                  folder_name (unquote root) actual_path usr))
  end.

Fixpoint parse_all (path_filter : option (string -> bool)) (usr : option nat)
    (rs : list dav_response) : result (list cloud_file) :=
  match rs with
  | [] => Ok []
  | r :: rs' =>
      o <- parse_one path_filter usr r ;;
      tl <- parse_all path_filter usr rs' ;;
      Ok (match o with Some f => f :: tl | None => tl end)
  end.

(** [parse_cloud_files_search_response(response_text, path_filter, user)],
    on the document BeautifulSoup builds from [response_text]. *)
Definition parse_cloud_files_search_response (doc : dav_document)
    (path_filter : option (string -> bool)) (usr : option nat) : result (list cloud_file) :=
  match doc with
  | None => Ok []
  | Some all_responses => parse_all path_filter usr (rev all_responses)
  end.

(** [BeautifulSoup(response_text, 'xml')] *)
Variable soup : string -> dav_document.
(** [urllib.parse.quote] *)
Variable quote : string -> string.

(** [list_group_folder_files(groupfolder_name, user)]; [search] is the
    outcome of [files_search(groupfolder_name)]. *)
Definition list_group_folder_files (search : result string) (usr : option nat)
  : result (list cloud_file) :=
  match search with
  | Raise _ => Ok []                             (* except Exception: return [] *)
  | Ok response_text => parse_cloud_files_search_response (soup response_text) None usr
  end.

(** [list_user_group_folders_files(user)]; [search] is the outcome of
    [files_search(order_by_last_modified=True)], [get_for_user] that of
    [get_cosinnus_group_model().objects.get_for_user(user)], made after the
    search. *)
Definition list_user_group_folders_files (search : result string)
    (get_for_user : result (list NameGen.group)) (usr : option nat) : result (list cloud_file) :=
  match search with
  | Raise _ => Ok []
  | Ok response_text =>
      user_groups <- get_for_user ;;
      let names :=
        map (fun g => quote match NameGen.nextcloud_groupfolder_name g with
                            | Some n => n | None => "" end)
            (filter (fun g => NameGen.truthy_str (NameGen.nextcloud_groupfolder_name g))
                    user_groups) in
      let path_filter := fun p =>
        existsb (fun gf => startswith p ("/" ++ gf ++ "/")) names in
      parse_cloud_files_search_response (soup response_text) (Some path_filter) usr
  end.

End Parse.

End Listing.

(** ** Concrete inputs *)

Module Examples.
Import PyStr NameGen Ocs Hooks Listing.

(** A 65-character name and another group that already holds its
    64-character truncation as group id. *)
Definition long_name : string := string_of_list_ascii (repeat "a"%char 65).
Definition truncated_name : string := string_of_list_ascii (repeat "a"%char 64).
Definition long_group : group := mkGroup 2 long_name TypeProject [] None None None.
Definition long_db : db :=
  [mkGroup 1 truncated_name TypeProject [] (Some truncated_name) None None; long_group].

(** Two groups named "Team Alpha"; the first one is fully set up. *)
Definition team_alpha_1 : group :=
  mkGroup 1 "Team Alpha" TypeProject [] (Some "Team Alpha") (Some "Team Alpha") (Some 5%Z).
Definition team_alpha_2 : group := mkGroup 2 "Team Alpha" TypeProject [] None None None.
Definition team_db : db := [team_alpha_1; team_alpha_2].

Definition numeric_group : group := mkGroup 3 "123" TypeProject [] None None None.

Definition ocs_ok (dt : json) : json :=
  JObj [("ocs", JObj [("meta", JObj [("status", JStr "ok"); ("statuscode", JInt 100);
                                     ("message", JStr "OK")]);
                      ("data", dt)])].

Definition ocs_failure (code : Z) (msg : string) : json :=
  JObj [("ocs", JObj [("meta", JObj [("status", JStr "failure"); ("statuscode", JInt code);
                                     ("message", JStr msg)]);
                      ("data", JList [])])].

Definition team_alpha_folder : json :=
  JObj [("id", JInt 5); ("mount_point", JStr "Team Alpha"); ("quota", JInt (-3))].
Definition folders_kv : list (string * json) := [("5", team_alpha_folder)].

(** A Nextcloud server on which group "Team Alpha" and its folder exist;
    [rename_answer] is its answer to a mount point change. *)
Definition nc_server (rename_answer : http_response) : server :=
  fun r => match r with
  | PostGroups _ => mkResponse true "" (Some (ocs_failure 102 "group exists"))
  | GetFolders => mkResponse true "" (Some (ocs_ok (JObj folders_kv)))
  | PostFolders _ => mkResponse true "" (Some (ocs_ok (JObj [("id", JInt 6)])))
  | PostFolderGroups _ _ | PostFolderQuota _ _ => mkResponse true "" (Some (ocs_ok (JBool true)))
  | PostFolderMountpoint _ _ => rename_answer
  end.

Definition rename_ok : http_response := mkResponse true "" (Some (ocs_ok (JBool true))).
Definition rename_false : http_response := mkResponse true "" (Some (ocs_ok (JBool false))).
Definition rename_unavailable : http_response := mkResponse false "Service Unavailable" None.

(** A group renamed to "New Name" whose row still holds "Old Name". *)
Definition renamed_group : group :=
  mkGroup 7 "New Name" TypeProject [] (Some "Old Name") (Some "Old Name") (Some 9%Z).
Definition renamed_db : db := [renamed_group].
Definition renamed_group_no_folder_id : group :=
  mkGroup 7 "New Name" TypeProject [] (Some "Old Name") (Some "Old Name") None.

Definition nc_url : string := "https://cloud.example.org".


End Examples.

(** ** The management commands [sync_nextcloud_users] and [sync_nextcloud_groups] *)

Module Sync.
Import PyStr NameGen Ocs Hooks Provision.

(** [x in container] for a string [x] and a decoded JSON value: element
    test on a list, key test on an object, substring test on a string. *)
Definition py_in_str (x : string) (j : json) : result bool :=
  match j with
  | JList l => Ok (existsb (fun v => match v with JStr s => String.eqb s x | _ => false end) l)
  | JObj kv => Ok (existsb (fun p => String.eqb (fst p) x) kv)
  | JStr s => Ok (match String.index 0 x s with Some _ => true | None => false end)
  | _ => Raise TypeError
  end.

Section Commands.
Variable usrv : user_server.
(** [settings.DEBUG] *)
Variable DEBUG : bool.

(** [nextcloud.list_all_users()] *)
Definition list_all_users : result json :=
  r <- response_or_raise (usrv ListUsers) ;;
  dt <- data r ;;
  if truthy dt then
    has <- py_in_str "users" dt ;;
    if has then getitem dt "users" else Ok (JList [])
  else Ok (JList []).

(** [create_user_from_obj(user)] *)
Definition create_user_from_obj (user_id : nat) : result json :=
  response_or_raise (usrv (CreateUser (get_nc_user_id user_id))).

(** The counters printed by [sync_nextcloud_users]. *)
Record user_counters : Type := mkUserCounters {
  u_counter : nat;
  u_created : nat;
  u_errors : nat
}.

(** The [for user in all_users] loop; [Raise] is an exception leaving the
    loop for the command's outer [try]. *)
Fixpoint sync_users_loop (existing : json) (c : user_counters) (users : list nat)
  : result user_counters * list step :=
  match users with
  | [] => (Ok c, [])
  | u :: rest =>
      let c := mkUserCounters (S (u_counter c)) (u_created c) (u_errors c) in
      match py_in_str (get_nc_user_id u) existing with
      | Raise e => (Raise e, [])
      | Ok true => sync_users_loop existing c rest
      | Ok false =>
          let st := UReq (CreateUser (get_nc_user_id u)) in
          let next :=
            match create_user_from_obj u with
            | Ok _ => Ok (mkUserCounters (u_counter c) (S (u_created c)) (u_errors c))
            | Raise (OCSException code _) =>
                if Z.eqb code 102 then Ok c
                else Ok (mkUserCounters (u_counter c) (u_created c) (S (u_errors c)))
            | Raise e =>
                if DEBUG then Raise e
                else Ok (mkUserCounters (u_counter c) (u_created c) (S (u_errors c)))
            end in
          match next with
          | Raise e => (Raise e, [st])
          | Ok c' => let '(r, sts) := sync_users_loop existing c' rest in (r, st :: sts)
          end
      end
  end.

(** [sync_nextcloud_users.Command.handle] over the active portal users:
    [Ok (Some c)] when the loop completes (the "Done!" line reports [c]),
    [Ok None] when the outer [except Exception] swallows an exception. *)
Definition sync_nextcloud_users (all_users : list nat) : result (option user_counters) * list step :=
  let '(r, sts) :=
    match list_all_users with
    | Raise e => (Raise e, [])
    | Ok existing => sync_users_loop existing (mkUserCounters 0 0 0) all_users
    end in
  (match r with
   | Ok c => Ok (Some c)
   | Raise e => if DEBUG then Raise e else Ok None
   end, UReq ListUsers :: sts).

(** The counters printed by [sync_nextcloud_groups]. *)
Record group_counters : Type := mkGroupCounters {
  g_counter : nat;
  g_created : nat;
  g_folders_created : nat;
  g_users_added : nat;
  g_errors : nat
}.

Definition add_error (c : group_counters) : group_counters :=
  mkGroupCounters (g_counter c) (g_created c) (g_folders_created c) (g_users_added c) (S (g_errors c)).

Variable PREFIX_GROUP_FOLDERS : bool.
Variable is_number : string -> bool.
Variable srv : server.
Variable ADMIN_USERNAME : string.

(** [nextcloud.create_group_folder(group.nextcloud_group_id,
    group.nextcloud_group_id, raise_on_existing_name=False)]: the call
    passes two of the three required positional parameters [name],
    [group_id], [group], so Python raises [TypeError] before the body runs. *)
Definition create_group_folder_two_args : result (option json) := Raise TypeError.

(** The [for nc_uid in nextcloud_user_ids] loop. *)
Fixpoint add_members (group_id : string) (c : group_counters) (uids : list string)
  : result group_counters * list step :=
  match uids with
  | [] => (Ok c, [])
  | uid :: rest =>
      let st := UReq (AddUserToGroup uid group_id) in
      let next :=
        match add_user_to_group usrv uid group_id with
        | Ok _ => Ok (mkGroupCounters (g_counter c) (g_created c) (g_folders_created c)
                        (S (g_users_added c)) (g_errors c))
        | Raise (OCSException _ _) => Ok (add_error c)
        | Raise e => if DEBUG then Raise e else Ok (add_error c)
        end in
      match next with
      | Raise e => (Raise e, [st])
      | Ok c' => let '(r, sts) := add_members group_id c' rest in (r, st :: sts)
      end
  end.

(** The body of [for group in portal_groups] after [counter += 1], for a
    group and its [actual_members]. *)
Definition sync_one_group (c : group_counters) (d : db) (g : group) (actual_members : list nat)
  : result group_counters * db * list step :=
  if mem "cosinnus_cloud" (deactivated_apps g) then (Ok c, d, []) else
  let gen :=
    if negb (truthy_str (nextcloud_group_id g)) then
      (* [generate_group_nextcloud_id(group)], outside any [try] *)
      let o := generate_group_nextcloud_field PREFIX_GROUP_FOLDERS is_number srv d g
                 F_nextcloud_group_id true false in
      (_ <- res o ;; Ok (obj o), rows o, map Eff (effects o))
    else (Ok g, d, []) in
  match gen with
  | (Raise e, d1, s0) => (Raise e, d1, s0)
  | (Ok g1, d1, s0) =>
      let group_id := attr_str (nextcloud_group_id g1) in
      let s1 := (s0 ++ [Eff (Req (PostGroups group_id))])%list in
      let created :=
        match create_group srv group_id with
        | Ok _ => Ok (mkGroupCounters (g_counter c) (S (g_created c)) (g_folders_created c)
                        (g_users_added c) (g_errors c), true)
        | Raise (OCSException code _) =>
            if Z.eqb code 102 then Ok (c, false) else Ok (add_error c, false)
        | Raise e => if DEBUG then Raise e else Ok (add_error c, false)
        end in
      match created with
      | Raise e => (Raise e, d1, s1)
      | Ok (c1, current_group_created) =>
          let folder :=
            if current_group_created then
              match create_group_folder_two_args with
              | Ok _ => Ok (mkGroupCounters (g_counter c1) (g_created c1) (S (g_folders_created c1))
                              (g_users_added c1) (g_errors c1))
              | Raise (OCSException _ _) => Ok (add_error c1)
              | Raise e => if DEBUG then Raise e else Ok (add_error c1)
              end
            else Ok c1 in
          match folder with
          | Raise e => (Raise e, d1, s1)
          | Ok c2 =>
              let nextcloud_user_ids :=
                (map get_nc_user_id actual_members ++ [ADMIN_USERNAME])%list in
              let '(r, sts) := add_members group_id c2 nextcloud_user_ids in
              (r, d1, (s1 ++ sts)%list)
          end
      end
  end.

Fixpoint sync_groups_loop (c : group_counters) (d : db) (portal_groups : list (group * list nat))
  : result group_counters * db * list step :=
  match portal_groups with
  | [] => (Ok c, d, [])
  | (g, members) :: rest =>
      let c := mkGroupCounters (S (g_counter c)) (g_created c) (g_folders_created c)
                 (g_users_added c) (g_errors c) in
      match sync_one_group c d g members with
      | (Raise e, d1, sts) => (Raise e, d1, sts)
      | (Ok c1, d1, sts) =>
          let '(r, d2, sts') := sync_groups_loop c1 d1 rest in
          (r, d2, (sts ++ sts')%list)
      end
  end.

(** [sync_nextcloud_groups.Command.handle] over the portal's groups, each
    with its members. *)
Definition sync_nextcloud_groups (d : db) (portal_groups : list (group * list nat))
  : result (option group_counters) * db * list step :=
  let '(r, d1, sts) := sync_groups_loop (mkGroupCounters 0 0 0 0 0) d portal_groups in
  (match r with
   | Ok c => Ok (Some c)
   | Raise e => if DEBUG then Raise e else Ok None
   end, d1, sts).

End Commands.

End Sync.

(** ** Dashboard widgets ([dashboard.py] [Latest.get_data], [views.py]
    [CloudFilesContentWidgetView.get_items_from_dataset]) *)

Module Widgets.
Import PyStr NameGen Ocs Provision.

(** [l[i:j]] with Python's index normalisation. *)
Definition py_slice_index (len i : Z) : Z :=
  if (i <? 0)%Z then Z.max 0 (len + i) else Z.min i len.

Definition py_slice {A} (l : list A) (i j : Z) : list A :=
  let n := Z.of_nat (List.length l) in
  let a := py_slice_index n i in
  let b := py_slice_index n j in
  firstn (Z.to_nat (b - a)) (skipn (Z.to_nat a) l).

(** The tuple [filename, folder_name, file_id, url] a row is built from. *)
Definition row := (string * string * string * string)%type.

(** Unpacking an element of [list_group_folder_files] into four names: the
    elements are [CloudFile] objects, which define no [__iter__]. *)
Definition unpack4 (f : Listing.cloud_file) : result row := Raise TypeError.

Fixpoint build_rows (fs : list Listing.cloud_file) : result (list row) :=
  match fs with
  | [] => Ok []
  | f :: fs' =>
      t <- unpack4 f ;;
      rest <- build_rows fs' ;;
      Ok (t :: rest)
  end.

Section Latest.
(** [nextcloud.list_group_folder_files(name)] *)
Variable list_group_folder_files : string -> result (list Listing.cloud_file).

(** [Latest.get_data(offset)] for the widget config's [amount] and group:
    the rows, [len(newest_group_files)] and [has_more]. *)
Definition latest_get_data (amount : json) (g : group) (offset : Z)
  : result (list row * nat * bool) :=
  count <- py_int amount ;;
  if truthy_str (nextcloud_group_id g) then
    files <- list_group_folder_files (attr_str (nextcloud_group_id g)) ;;
    let files := if Z.eqb count 0 then files else py_slice files offset (offset + count) in
    rows <- build_rows files ;;
    Ok (rows, List.length files, Z.geb (Z.of_nat (List.length files)) count)
  else
    (* [newest_group_files] was never assigned: [len(newest_group_files)] *)
    Raise (OtherError "UnboundLocalError: newest_group_files").

End Latest.

Section Items.
(** [settings.COSINNUS_CLOUD_NEXTCLOUD_URL] *)
Variable NEXTCLOUD_URL : string.
(** [django.utils.html.escape], and [str()] as used by the f-string *)
Variable escape : json -> string.
Variable py_str : json -> string.

(** [doc['info']['file']] and [doc['info']['dir']], read in that order. *)
Definition doc_info (doc : json) : result (json * json) :=
  i <- getitem doc "info" ;;
  f <- getitem i "file" ;;
  i' <- getitem doc "info" ;;
  dr <- getitem i' "dir" ;;
  Ok (f, dr).

(** [get_items_from_dataset]'s loop over [dataset['documents']]: a
    [KeyError] while reading the info skips the document; the link is read
    outside the [try]. An item is its text, subtext and url. *)
Fixpoint get_items_from_dataset (docs : list json) : result (list (string * string * string)) :=
  match docs with
  | [] => Ok []
  | doc :: rest =>
      match doc_info doc with
      | Raise (KeyError _) => get_items_from_dataset rest
      | Raise e => Raise e
      | Ok (f, dr) =>
          link <- getitem doc "link" ;;
          items <- get_items_from_dataset rest ;;
          Ok ((escape f, escape dr, NEXTCLOUD_URL ++ py_str link) :: items)
      end
  end.

End Items.

End Widgets.

(** ** Views on runs used to state their properties *)

Module Views.
Import PyStr NameGen Ocs Hooks Provision Sync.

(** The delays slept by a retry run, in order. *)
Fixpoint sleeps (evs : list Retry.event) : list Z :=
  match evs with
  | [] => []
  | Retry.Sleep d :: evs' => d :: sleeps evs'
  | _ :: evs' => sleeps evs'
  end.

(** A group row or object with its folder id erased. *)
Definition forget_fid (r : group) : group := set_groupfolder_id r None.

(** A group row with its folder name erased. *)
Definition forget_name (r : group) : group := set_field r F_nextcloud_groupfolder_name None.

(** A group row with its folder name and folder id erased. *)
Definition forget_folder (r : group) : group := forget_fid (forget_name r).

(** The effects of the rename hook: the mount point request, the save of
    the new folder name, the reload. *)
Definition hook_effect (e : effect) : Prop :=
  (exists fid n, e = Req (PostFolderMountpoint fid n)) \/
  e = Save ["nextcloud_groupfolder_name"] \/ e = Refresh.

(** The rename hook with its nested call written out. The save of a
    confirmed name runs the hook again, on the same object: that call
    regenerates the same name and only reloads the group
    ([hook_unfold] below). *)
Definition hook_once (P : bool) (is_number : string -> bool) (srv : server) (g : group) (d : db)
  : outcome unit :=
  if rename_guard g then
    let n := generated_name P is_number d g F_nextcloud_groupfolder_name in
    let g1 := setattr g F_nextcloud_groupfolder_name n in
    if negb (opt_str_eqb (Some n) (nextcloud_groupfolder_name g)) then
      let fid := match nextcloud_groupfolder_id g with Some z => z | None => 0%Z end in
      let effs := [Req (PostFolderMountpoint fid n)] in
      match rename_group_and_group_folder srv fid n with
      | Raise e => mkOutcome (Raise e) g1 d effs
      | Ok (JBool true) =>
          let o := save_then (fun g' d' => reload g' d' []) d g1 ["nextcloud_groupfolder_name"] in
          mkOutcome (res o) (obj o) (rows o) (effs ++ effects o)%list
      | Ok _ => reload g1 d effs
      end
    else reload g1 d []
  else mkOutcome (Ok tt) g d [].

(** [group.save(update_fields=['nextcloud_groupfolder_id'])] as an effect. *)
Definition save_fid : effect := Save ["nextcloud_groupfolder_id"].

(** The steps a run of [sync_nextcloud_groups] may perform: save a generated
    group id, and in the rename hook that save runs, rename a folder, save
    the new folder name and reload the group; create a Nextcloud group; add
    a user to a group. *)
Definition group_sync_step (s : step) : Prop :=
  s = Eff (Save ["nextcloud_group_id"]) \/
  (exists fid n, s = Eff (Req (PostFolderMountpoint fid n))) \/
  s = Eff (Save ["nextcloud_groupfolder_name"]) \/
  s = Eff Refresh \/
  (exists gi, s = Eff (Req (PostGroups gi))) \/
  (exists u gi, s = UReq (AddUserToGroup u gi)).

(** How the counters of [sync_nextcloud_groups] may move between two
    points of a run: no folder is counted, every group counted as created
    is matched by an error, and nothing is created when [DEBUG] is set. *)
Definition grows (DEBUG : bool) (c c' : group_counters) : Prop :=
  g_folders_created c' = g_folders_created c /\
  g_created c + g_errors c' >= g_created c' + g_errors c /\
  (DEBUG = true -> g_created c' = g_created c).

(** A dataset document whose [info] entries can be read. *)
Definition has_info (doc : json) : bool :=
  match Widgets.doc_info doc with Ok _ => true | Raise _ => false end.

End Views.

(** ** More concrete inputs *)

Module ExtraExamples.
Import PyStr NameGen Ocs Listing Provision Examples.

(** A fresh group "Beta", and the same group once provisioned. *)
Definition beta_group : group := mkGroup 4 "Beta" TypeProject [] None None None.
Definition beta_db : db := [beta_group].
Definition beta_ready : group :=
  mkGroup 4 "Beta" TypeProject [] (Some "Beta") (Some "Beta") (Some 6%Z).

(** A Nextcloud user API that knows user "wechange-1" and accepts every
    other request, and one that is unreachable. *)
Definition users_server : user_server :=
  fun r => match r with
  | ListUsers => mkResponse true "" (Some (ocs_ok (JObj [("users", JList [JStr "wechange-1"])])))
  | _ => mkResponse true "" (Some (ocs_ok (JList [])))
  end.
Definition users_server_down : user_server :=
  fun _ => mkResponse false "Service Unavailable" None.

(** A call that fails on its first two attempts. *)
Definition fails_twice (i : nat) : result nat :=
  if Nat.ltb i 2 then Raise (OtherError "connection refused") else Ok i.

Definition json_text (j : json) : string := match j with JStr s => s | _ => "" end.

(** Two search documents of the files widget: one with its info, one without. *)
Definition doc_with_info : json :=
  JObj [("info", JObj [("file", JStr "report.pdf"); ("dir", JStr "Beta")]); ("link", JStr "/f/42")].
Definition doc_without_info : json := JObj [("link", JStr "/f/43")].

(** A WebDAV answer holding one file of folder "Beta", and that file. *)
Definition beta_search_doc : dav_document :=
  Some [mkDavResponse (Some "/remote.php/dav/files/admin/Beta/report.pdf") (Some "42")].
Definition beta_report : cloud_file :=
  mkCloudFile "report.pdf" (nc_url ++ "/f/42") (nc_url ++ "/remote.php/dav/files/admin/Beta/report.pdf")
    None "Beta" "Beta" "/Beta/report.pdf".

(** A group whose stored folder name and mount point are another group's
    name, and whose numeric folder id is missing. *)
Definition beta_on_alpha : group :=
  mkGroup 8 "Team Beta" TypeProject [] (Some "Team Alpha") (Some "Team Alpha") None.

End ExtraExamples.


(** * Proofs *)

Module RetryFacts.
Import Retry.

Lemma attempts_app (l1 l2 : list event) :
  attempts (l1 ++ l2) = attempts l1 + attempts l2.
Proof. unfold attempts. rewrite filter_app, length_app. reflexivity. Qed.

(** The loop on an always-failing callable: one call per remaining delay
    plus a last one, whose exception is the task's result. *)
Lemma exec_loop_always_fails {A} (fn : nat -> result A) :
  (forall n, exists e, fn n = Raise e) ->
  forall retry_wait n,
  exists e pre,
    exec_loop A fn retry_wait n = (Raise e, pre ++ [LogGiveUp])%list /\
    fn (n + List.length retry_wait) = Raise e /\
    attempts pre = List.length retry_wait + 1.
Proof.
  intros Hfail retry_wait. induction retry_wait as [|d rest IH]; intro n.
  - destruct (Hfail n) as [e He].
    exists e, [Attempt n]. simpl. rewrite He, Nat.add_0_r. auto.
  - destruct (Hfail n) as [e He].
    destruct (IH (S n)) as (e' & pre & Hl & He' & Ha).
    exists e', (Attempt n :: LogRetry d (List.length rest) :: Sleep d :: pre)%list.
    simpl. rewrite He, Hl. split; [reflexivity|]. split.
    + rewrite <- He'. f_equal. lia.
    + unfold attempts in *. simpl. rewrite Ha. lia.
Qed.

End RetryFacts.

Module StrFacts.
Import PyStr.

Lemma append_nil_r (s : string) : (s ++ "")%string = s.
Proof. induction s; simpl; congruence. Qed.

Lemma append_assoc (a b c : string) : ((a ++ b) ++ c = a ++ (b ++ c))%string.
Proof. induction a; simpl; congruence. Qed.

Lemma append_cancel_l (s a b : string) : (s ++ a = s ++ b)%string -> a = b.
Proof. induction s; simpl; intros H; [exact H | inversion H; auto]. Qed.

Lemma length_append (a b : string) :
  String.length (a ++ b) = String.length a + String.length b.
Proof. induction a; simpl; congruence. Qed.

Lemma lower_append (a b : string) : lower (a ++ b) = (lower a ++ lower b)%string.
Proof. induction a; simpl; congruence. Qed.

Lemma lower_length (s : string) : String.length (lower s) = String.length s.
Proof. induction s; simpl; congruence. Qed.

Lemma lower_all_digits (s : string) : all_digits s = true -> lower s = s.
Proof.
  induction s as [|c s IH]; simpl; [reflexivity|].
  intro H. apply andb_prop in H as [Hc Hs]. rewrite IH by exact Hs.
  unfold lower_char. unfold is_digit, is_upper in *.
  destruct (Nat.leb 65 (code c)) eqn:E1, (Nat.leb (code c) 90) eqn:E2; simpl; try reflexivity.
  apply andb_prop in Hc as [H1 H2].
  apply Nat.leb_le in H2. apply Nat.leb_le in E1. lia.
Qed.

Lemma string_of_uint_all_digits (d : Decimal.uint) :
  all_digits (NilEmpty.string_of_uint d) = true.
Proof. induction d; simpl; auto. Qed.

Lemma show_nat_inj (m n : nat) : show_nat m = show_nat n -> m = n.
Proof.
  unfold show_nat. intro H.
  assert (Hu : Nat.to_uint m = Nat.to_uint n).
  { apply (f_equal NilEmpty.uint_of_string) in H.
    rewrite !NilEmpty.usu in H. congruence. }
  rewrite <- (DecimalNat.Unsigned.of_to m), <- (DecimalNat.Unsigned.of_to n), Hu.
  reflexivity.
Qed.

Lemma mem_In (x : string) (xs : list string) : mem x xs = true <-> In x xs.
Proof.
  unfold mem. rewrite existsb_exists. split.
  - intros (y & Hy & E). apply String.eqb_eq in E. subst. exact Hy.
  - intro H. exists x. split; [exact H | apply String.eqb_refl].
Qed.

Lemma startswith_append (a b : string) : startswith (a ++ b) a = true.
Proof.
  unfold startswith. induction a as [|c a IH]; simpl.
  - destruct b; reflexivity.
  - destruct (ascii_dec c c) as [_|N]; [exact IH | contradiction].
Qed.

End StrFacts.

Module UniqFacts.
Import PyStr NameGen StrFacts.

Definition suffixed (filtered_name : string) (k : nat) : string :=
  (filtered_name ++ " " ++ show_nat k)%string.

(** Every name the loop returns extends the truncated candidate. *)
Lemma uniq_loop_prefix (names : list string) (filt : string) :
  forall fuel counter s0,
  exists s, uniq_loop names filt fuel counter (filt ++ s0) = (filt ++ s)%string.
Proof.
  induction fuel as [|f IH]; intros c s0; simpl.
  - exists s0. destruct (mem _ _); reflexivity.
  - destruct (mem _ _).
    + apply IH.
    + exists s0. reflexivity.
Qed.

(** If the loop ends on a colliding name, every candidate it tried collided. *)
Lemma uniq_loop_tried (names : list string) (filt : string) :
  forall fuel counter u,
  mem (lower (uniq_loop names filt fuel counter u)) names = true ->
  Forall (fun x => In (lower x) names) (u :: map (suffixed filt) (seq counter fuel)).
Proof.
  induction fuel as [|f IH]; intros c u H; simpl in H.
  - destruct (mem (lower u) names) eqn:E; constructor; auto; apply mem_In; auto.
  - destruct (mem (lower u) names) eqn:E; [|rewrite E in H; discriminate].
    specialize (IH (S c) _ H). inversion IH; subst.
    constructor; [apply mem_In; exact E|].
    simpl. constructor; assumption.
Qed.

Lemma lower_suffixed (filt : string) (k : nat) :
  lower (suffixed filt k) = (lower filt ++ " " ++ show_nat k)%string.
Proof.
  unfold suffixed. rewrite lower_append. simpl.
  rewrite (lower_all_digits (show_nat k)) by apply string_of_uint_all_digits.
  reflexivity.
Qed.

Lemma candidates_NoDup (filt : string) (counter fuel : nat) :
  NoDup (map lower (filt :: map (suffixed filt) (seq counter fuel))).
Proof.
  simpl. constructor.
  - rewrite map_map. intro Hin. apply in_map_iff in Hin as (k & Hk & _).
    apply (f_equal String.length) in Hk.
    rewrite lower_suffixed, !length_append, lower_length in Hk. simpl in Hk. lia.
  - rewrite map_map. apply Finite.Injective_map_NoDup; [|apply seq_NoDup].
    intros m n H. rewrite !lower_suffixed in H.
    apply append_cancel_l in H. injection H as H. apply show_nat_inj, H.
Qed.

(** With [List.length names] steps of fuel, the loop always ends on a name
    that does not collide. *)
Lemma uniq_loop_free (names : list string) (filt : string) :
  mem (lower (uniq_loop names filt (List.length names) 2 filt)) names = false.
Proof.
  destruct (mem _ names) eqn:E; [|reflexivity]. exfalso.
  apply uniq_loop_tried in E.
  assert (Hincl : incl (map lower (filt :: map (suffixed filt) (seq 2 (List.length names)))) names).
  { intros x Hx. apply in_map_iff in Hx as (y & <- & Hy).
    rewrite Forall_forall in E. apply E, Hy. }
  apply NoDup_incl_length in Hincl; [|apply candidates_NoDup].
  rewrite length_map in Hincl. simpl in Hincl.
  rewrite length_map, length_seq in Hincl. lia.
Qed.

Lemma getattr_setattr (g : group) (f : field) (v : string) :
  getattr (setattr g f v) f = Some v.
Proof. destruct f; reflexivity. Qed.

Lemma candidate_name_nonempty (P : bool) (is_number : string -> bool) (g : group) :
  candidate_name P is_number g <> ""%string.
Proof.
  unfold candidate_name.
  destruct P.
  - destruct (group_type_eqb _ _); discriminate.
  - destruct (String.eqb (filter_name (name g)) "" || is_number (filter_name (name g)))
      eqn:E.
    + discriminate.
    + apply orb_false_iff in E as [E _].
      destruct (filter_name (name g)) as [|c s]; [discriminate|].
      unfold take. discriminate.
Qed.

End UniqFacts.

Module DbFacts.
Import NameGen Views.

Lemma db_update_map (forget : group -> group) (d : db) (g : group) (copy : group -> group) (d1 : db) :
  (forall r, forget (copy r) = forget r) -> db_update d g copy = Ok d1 ->
  map forget d1 = map forget d.
Proof.
  intros Hc H. unfold db_update in H. destruct (existsb _ d); [|discriminate].
  injection H as <-. rewrite map_map. apply map_ext. intro r.
  destruct (Z.eqb (gid r) (gid g)); auto.
Qed.

Lemma db_update_others (d : db) (g : group) (copy : group -> group) (d1 : db) :
  (forall r, gid (copy r) = gid r) -> db_update d g copy = Ok d1 ->
  filter (fun r => negb (Z.eqb (gid r) (gid g))) d1 = filter (fun r => negb (Z.eqb (gid r) (gid g))) d.
Proof.
  intros Hc H. unfold db_update in H. destruct (existsb _ d); [|discriminate].
  injection H as <-. induction d as [|r d IH]; simpl; [reflexivity|].
  destruct (Z.eqb (gid r) (gid g)) eqn:E; simpl.
  - rewrite Hc, E. simpl. exact IH.
  - rewrite E. simpl. f_equal. exact IH.
Qed.

Lemma refresh_db_update (d : db) (g : group) (copy : group -> group) (d1 : db) (h : group) :
  (forall r, gid (copy r) = gid r) -> db_update d g copy = Ok d1 -> gid h = gid g ->
  refresh_from_db d1 h =
    match refresh_from_db d h with Ok r => Ok (copy r) | Raise e => Raise e end.
Proof.
  intros Hc H Hh. unfold db_update in H. destruct (existsb _ d); [|discriminate].
  injection H as <-. induction d as [|r d IH]; simpl; [reflexivity|].
  destruct (Z.eqb (gid r) (gid g)) eqn:E; simpl.
  - rewrite Hc, !Hh, E. reflexivity.
  - rewrite !Hh, E. exact IH.
Qed.

Lemma refresh_exists (d : db) (g : group) :
  existsb (fun r => Z.eqb (gid r) (gid g)) d = true -> exists r, refresh_from_db d g = Ok r.
Proof.
  induction d as [|r d IH]; simpl; [discriminate|].
  destruct (Z.eqb (gid r) (gid g)); simpl; eauto.
Qed.

End DbFacts.

(** ** Saving a group: the rename hook behind every save *)

Module HookFacts.
Import PyStr NameGen Ocs Hooks StrFacts UniqFacts DbFacts Views.

Lemma copy_field_gid (g : group) (fname : string) (r : group) : gid (copy_field g fname r) = gid r.
Proof.
  unfold copy_field.
  destruct (String.eqb fname _); [destruct r; reflexivity|].
  destruct (String.eqb fname _); [destruct r; reflexivity|].
  destruct (String.eqb fname _); [destruct r|]; reflexivity.
Qed.

Lemma copy_fields_gid (g : group) (fs : list string) : forall r, gid (copy_fields g fs r) = gid r.
Proof.
  unfold copy_fields. induction fs as [|f fs IH]; intro r; simpl; [reflexivity|].
  rewrite IH. apply copy_field_gid.
Qed.

Lemma copy_name_forget (g r : group) :
  forget_name (copy_fields g ["nextcloud_groupfolder_name"] r) = forget_name r.
Proof. destruct r; reflexivity. Qed.

Lemma forget_name_gid (r : group) : gid (forget_name r) = gid r.
Proof. destruct r; reflexivity. Qed.

Lemma forget_name_setattr (g : group) (n : string) :
  forget_name (setattr g F_nextcloud_groupfolder_name n) = forget_name g.
Proof. destruct g; reflexivity. Qed.

Lemma gid_setattr (g : group) (f : field) (v : string) : gid (setattr g f v) = gid g.
Proof. destruct f; reflexivity. Qed.

Lemma setattr_same (g : group) (f : field) (v : string) : getattr g f = Some v -> setattr g f v = g.
Proof. destruct g, f; simpl; intros ->; reflexivity. Qed.

Lemma refresh_from_db_gid (d : db) (g g' : group) :
  gid g = gid g' -> refresh_from_db d g = refresh_from_db d g'.
Proof. intro E. induction d as [|r d IH]; simpl; [reflexivity|]. rewrite E, IH. reflexivity. Qed.

Lemma refresh_gid (d : db) (g row : group) : refresh_from_db d g = Ok row -> gid row = gid g.
Proof.
  induction d as [|r d IH]; simpl; [discriminate|].
  destruct (Z.eqb (gid r) (gid g)) eqn:E; [|exact IH].
  intros [= <-]. apply Z.eqb_eq, E.
Qed.

Lemma refresh_existsb (d : db) (g row : group) :
  refresh_from_db d g = Ok row -> existsb (fun r => Z.eqb (gid r) (gid g)) d = true.
Proof.
  induction d as [|r d IH]; simpl; [discriminate|].
  destruct (Z.eqb (gid r) (gid g)); [reflexivity | exact IH].
Qed.

(** Rows related by a gid-preserving map have corresponding rows. *)
Lemma refresh_map_eq (forget : group -> group) (d1 d2 : db) (g r : group) :
  (forall x, gid (forget x) = gid x) ->
  map forget d1 = map forget d2 -> refresh_from_db d1 g = Ok r ->
  exists r', refresh_from_db d2 g = Ok r' /\ forget r' = forget r.
Proof.
  intro Hf. revert d2. induction d1 as [|a d1 IH]; intros [|b d2] Hm H; try discriminate.
  injection Hm as Hab Hm. cbn [refresh_from_db] in *.
  assert (Hg : gid b = gid a) by (rewrite <- (Hf b), <- (Hf a), Hab; reflexivity).
  rewrite Hg. destruct (Z.eqb (gid a) (gid g)).
  - injection H as <-. exists b. split; [reflexivity | symmetry; exact Hab].
  - apply IH; assumption.
Qed.

Lemma db_update_existsb (d : db) (g : group) (c : group -> group) (d1 : db) :
  (forall r, gid (c r) = gid r) -> db_update d g c = Ok d1 ->
  existsb (fun r => Z.eqb (gid r) (gid g)) d = true /\
  existsb (fun r => Z.eqb (gid r) (gid g)) d1 = true.
Proof.
  intros Hc H. unfold db_update in H. destruct (existsb _ d) eqn:E; [|discriminate].
  injection H as <-. split; [reflexivity|].
  induction d as [|r d IH]; simpl in *; [discriminate|].
  destruct (Z.eqb (gid r) (gid g)) eqn:Er; simpl.
  - rewrite Hc, Er. reflexivity.
  - rewrite Er. simpl. apply IH, E.
Qed.

Lemma db_update_exists_ok (d : db) (g : group) (c : group -> group) :
  existsb (fun r => Z.eqb (gid r) (gid g)) d = true -> exists d1, db_update d g c = Ok d1.
Proof. unfold db_update. intros ->. eauto. Qed.

Section Facts.
Variables (P : bool) (is_number : string -> bool) (srv : server).

Lemma generated_name_prefix (d : db) (g : group) (f : field) :
  exists s, generated_name P is_number d g f = (candidate_name P is_number g ++ s)%string.
Proof.
  unfold generated_name. set (filt := candidate_name P is_number g).
  destruct (uniq_loop_prefix (excluded_names d g f filt) filt
              (List.length (excluded_names d g f filt)) 2 "") as [s Hs].
  rewrite append_nil_r in Hs. exists s. exact Hs.
Qed.

Lemma generated_name_nonempty (d : db) (g : group) (f : field) :
  String.eqb (generated_name P is_number d g f) "" = false.
Proof.
  destruct (generated_name_prefix d g f) as [s ->].
  pose proof (candidate_name_nonempty P is_number g) as H.
  destruct (candidate_name P is_number g); [contradiction | reflexivity].
Qed.

(** The generated name depends on the group's name, type and id only. *)
Lemma generated_name_same (d : db) (g h : group) (f : field) :
  gid h = gid g -> name h = name g -> type h = type g ->
  generated_name P is_number d h f = generated_name P is_number d g f.
Proof.
  intros E1 E2 E3. unfold generated_name, excluded_names, candidate_name.
  rewrite E1, E2, E3. reflexivity.
Qed.

Lemma query_cons_self (r : group) (d : db) (f : field) (pre : string) (self : Z) :
  Z.eqb (gid r) self = true -> query_istartswith (r :: d) f pre self = query_istartswith d f pre self.
Proof. intro E. simpl. rewrite E. destruct (getattr r f); [rewrite andb_false_r|]; reflexivity. Qed.

(** The query excludes the group's own row, so a save of that row does not
    change its answer. *)
Lemma query_update (d : db) (g : group) (c : group -> group) (f : field) (pre : string) :
  (forall r, gid (c r) = gid r) ->
  query_istartswith (map (fun r => if Z.eqb (gid r) (gid g) then c r else r) d) f pre (gid g)
  = query_istartswith d f pre (gid g).
Proof.
  intro Hc. induction d as [|r d IH]; [reflexivity|].
  cbn [map]. destruct (Z.eqb (gid r) (gid g)) eqn:E.
  - rewrite !query_cons_self; [exact IH | exact E | rewrite Hc; exact E].
  - simpl. rewrite E, IH. reflexivity.
Qed.

Lemma generated_name_update (d d' : db) (g h : group) (c : group -> group) (f : field) :
  (forall r, gid (c r) = gid r) -> db_update d g c = Ok d' -> gid h = gid g ->
  generated_name P is_number d' h f = generated_name P is_number d h f.
Proof.
  intros Hc H Hh. unfold db_update in H. destruct (existsb _ d); [|discriminate].
  injection H as <-. unfold generated_name, excluded_names. rewrite Hh, query_update by exact Hc.
  reflexivity.
Qed.

Lemma rename_guard_setattr (g : group) (n : string) :
  rename_guard g = true -> String.eqb n "" = false ->
  rename_guard (setattr g F_nextcloud_groupfolder_name n) = true.
Proof.
  destruct g. unfold rename_guard, folder_id_missing in *. cbn in *. intros H Hn. rewrite Hn. simpl.
  apply andb_prop in H as [H H4]. apply andb_prop in H as [H H3]. apply andb_prop in H as [H1 H2].
  rewrite H1, H2, H4. reflexivity.
Qed.

(** A saved group whose folder name is the one the hook would generate:
    the hook only reloads it. *)
Lemma hook_stable (n : nat) (g : group) (d : db) :
  rename_guard g = true ->
  nextcloud_groupfolder_name g = Some (generated_name P is_number d g F_nextcloud_groupfolder_name) ->
  rename_nextcloud_groupfolder_on_group_rename P is_number srv (S n) false g d = reload g d [].
Proof.
  intros Hg Hn. cbn [rename_nextcloud_groupfolder_on_group_rename]. rewrite Hg.
  unfold generate_with. rewrite andb_false_r. cbn [obj].
  rewrite setattr_same by exact Hn. rewrite Hn. simpl. rewrite String.eqb_refl. reflexivity.
Qed.

(** The hook with room for two nested calls is [hook_once]. *)
Lemma hook_unfold (n : nat) (g : group) (d : db) :
  rename_nextcloud_groupfolder_on_group_rename P is_number srv (S (S n)) false g d =
  hook_once P is_number srv g d.
Proof.
  set (m := S n). cbn [rename_nextcloud_groupfolder_on_group_rename]. unfold hook_once.
  destruct (rename_guard g) eqn:Hg; [|reflexivity].
  unfold generate_with. rewrite andb_false_r. cbn [obj].
  set (u := generated_name P is_number d g F_nextcloud_groupfolder_name).
  cbn [nextcloud_groupfolder_name nextcloud_groupfolder_id setattr set_field].
  destruct (negb (opt_str_eqb (Some u) (nextcloud_groupfolder_name g))); [|reflexivity].
  destruct (rename_group_and_group_folder srv _ u) as [[| [|] | | | | |]|e]; try reflexivity.
  unfold save_then.
  destruct (db_update d _ _) as [d2|e] eqn:Hu; [|reflexivity].
  subst m. rewrite hook_stable; [reflexivity | |].
  - apply rename_guard_setattr; [exact Hg | apply generated_name_nonempty].
  - cbn [nextcloud_groupfolder_name setattr set_field]. f_equal.
    rewrite (generated_name_update _ _ _ _ _ _ (copy_fields_gid _ _) Hu eq_refl).
    symmetry. apply generated_name_same; destruct g; reflexivity.
Qed.

(** Every save of the app runs [hook_once] on the saved object. *)
Lemma group_save_unfold (d : db) (g : group) (fs : list string) :
  group_save P is_number srv d g fs = save_then (hook_once P is_number srv) d g fs.
Proof.
  unfold group_save, save_then. destruct (db_update _ _ _); [|reflexivity].
  change recursion_limit with (S (S 998)). rewrite hook_unfold. reflexivity.
Qed.

Lemma hook_once_stable (g : group) (d : db) :
  rename_guard g = true ->
  nextcloud_groupfolder_name g = Some (generated_name P is_number d g F_nextcloud_groupfolder_name) ->
  hook_once P is_number srv g d = reload g d [].
Proof.
  intros Hg Hn. rewrite <- (hook_unfold 0). apply hook_stable; assumption.
Qed.

Definition rows_ok (pr : group -> Prop) (d : db) (i : Z) : Prop :=
  forall r, In r d -> gid r = i -> pr r.

Lemma refresh_In (d : db) (g r : group) :
  refresh_from_db d g = Ok r -> In r d /\ gid r = gid g.
Proof.
  induction d as [|a d IH]; simpl; [discriminate|].
  destruct (Z.eqb (gid a) (gid g)) eqn:E.
  - intros [= <-]. split; [left; reflexivity | apply Z.eqb_eq, E].
  - intro H. destruct (IH H). split; [right|]; assumption.
Qed.

Lemma reload_inv (pr : group -> Prop) (g : group) (d : db) (effs : list effect) :
  pr g -> rows_ok pr d (gid g) ->
  pr (obj (reload g d effs)) /\ rows (reload g d effs) = d.
Proof.
  intros Hg Hd. unfold reload. destruct (refresh_from_db d g) as [r|e] eqn:E; simpl; [|auto].
  destruct (refresh_In _ _ _ E). split; [apply Hd|]; auto.
Qed.

Lemma reload_rows (g : group) (d : db) (effs : list effect) : rows (reload g d effs) = d.
Proof. unfold reload. destruct (refresh_from_db d g); reflexivity. Qed.

Lemma reload_cases (g : group) (d : db) (effs : list effect) :
  (exists e, refresh_from_db d g = Raise e /\ reload g d effs = mkOutcome (Raise e) g d effs) \/
  (exists r, refresh_from_db d g = Ok r /\ reload g d effs = mkOutcome (Ok tt) r d (effs ++ [Refresh])%list).
Proof. unfold reload. destruct (refresh_from_db d g); eauto. Qed.

Lemma db_update_rows_ok (pr : group -> Prop) (d d1 : db) (g : group) (c : group -> group) :
  (forall r, gid (c r) = gid r) -> (forall r, pr r -> pr (c r)) ->
  rows_ok pr d (gid g) -> db_update d g c = Ok d1 -> rows_ok pr d1 (gid g).
Proof.
  intros Hg Hc Hd H. unfold db_update in H. destruct (existsb _ d); [|discriminate].
  injection H as <-. intros r' Hin Hid. apply in_map_iff in Hin as (r & <- & Hr).
  destruct (Z.eqb (gid r) (gid g)) eqn:E.
  - apply Hc, Hd; [exact Hr | apply Z.eqb_eq, E].
  - rewrite Hid, Z.eqb_refl in E. discriminate.
Qed.

(** What [hook_once] keeps: a property of the group object and of its row
    that setting the folder name and saving it do not affect. *)
Lemma hook_once_inv (pr : group -> Prop) (g : group) (d : db) :
  (forall x n, pr x -> pr (setattr x F_nextcloud_groupfolder_name n)) ->
  (forall x r, pr r -> pr (copy_fields x ["nextcloud_groupfolder_name"] r)) ->
  pr g -> rows_ok pr d (gid g) ->
  pr (obj (hook_once P is_number srv g d)) /\ rows_ok pr (rows (hook_once P is_number srv g d)) (gid g).
Proof.
  intros Hs Hc Hg Hd. unfold hook_once.
  destruct (rename_guard g); [|split; assumption].
  set (n := generated_name _ _ _ _ _).
  assert (Hg1 : pr (setattr g F_nextcloud_groupfolder_name n)) by auto.
  assert (Hd1 : rows_ok pr d (gid (setattr g F_nextcloud_groupfolder_name n))) by exact Hd.
  destruct (negb _).
  2:{ destruct (reload_inv _ _ _ [] Hg1 Hd1) as [H1 ->]. split; assumption. }
  destruct (rename_group_and_group_folder _ _ _) as [r|e]; [|split; assumption].
  assert (Hre : forall effs, pr (obj (reload (setattr g F_nextcloud_groupfolder_name n) d effs)) /\
                  rows_ok pr (rows (reload (setattr g F_nextcloud_groupfolder_name n) d effs)) (gid g)).
  { intro effs. destruct (reload_inv _ _ _ effs Hg1 Hd1) as [H1 ->]. split; assumption. }
  destruct r as [| [|] | | | | |]; try apply Hre.
  unfold save_then. destruct (db_update _ _ _) as [d2|e] eqn:Hu; [|split; assumption].
  assert (Hd2 : rows_ok pr d2 (gid (setattr g F_nextcloud_groupfolder_name n))).
  { refine (db_update_rows_ok _ d _ _ _ (copy_fields_gid _ _) _ Hd1 Hu). auto. }
  destruct (reload_inv _ _ _ [] Hg1 Hd2) as [H1 H2]. cbn [obj rows]. rewrite H2. split; assumption.
Qed.

(** The rows [hook_once] leaves: the same, or the folder name of the group's
    row updated. *)
Lemma hook_once_rows (g : group) (d : db) :
  rows (hook_once P is_number srv g d) = d \/
  exists n, db_update d (setattr g F_nextcloud_groupfolder_name n)
              (copy_fields (setattr g F_nextcloud_groupfolder_name n) ["nextcloud_groupfolder_name"])
            = Ok (rows (hook_once P is_number srv g d)).
Proof.
  unfold hook_once. destruct (rename_guard g); [|left; reflexivity].
  set (n := generated_name _ _ _ _ _).
  destruct (negb _); [|left; apply reload_rows].
  destruct (rename_group_and_group_folder _ _ _) as [r|e]; [|left; reflexivity].
  assert (Hre : forall effs, rows (reload (setattr g F_nextcloud_groupfolder_name n) d effs) = d).
  { intro effs. apply reload_rows. }
  destruct r as [| [|] | | | | |]; try (left; apply Hre).
  unfold save_then. destruct (db_update _ _ _) as [d2|e] eqn:Hu; [|left; reflexivity].
  right. exists n. cbn [obj rows]. rewrite reload_rows. exact Hu.
Qed.

Lemma hook_once_forget (g : group) (d : db) :
  map forget_name (rows (hook_once P is_number srv g d)) = map forget_name d /\
  filter (fun r => negb (Z.eqb (gid r) (gid g))) (rows (hook_once P is_number srv g d)) =
  filter (fun r => negb (Z.eqb (gid r) (gid g))) d.
Proof.
  destruct (hook_once_rows g d) as [-> | [n Hu]]; [split; reflexivity|].
  split.
  - apply (db_update_map _ _ _ _ _ (copy_name_forget _) Hu).
  - apply (db_update_others _ _ _ _ (copy_fields_gid _ _) Hu).
Qed.

Lemma hook_once_effects (g : group) (d : db) :
  Forall hook_effect (effects (hook_once P is_number srv g d)).
Proof.
  assert (Hre : forall x d' effs, Forall hook_effect effs ->
            Forall hook_effect (effects (reload x d' effs))).
  { intros x d' effs H. unfold reload. destruct (refresh_from_db d' x); simpl; [|exact H].
    apply Forall_app. split; [exact H|]. constructor; [unfold hook_effect; auto | constructor]. }
  unfold hook_once. destruct (rename_guard g); [|constructor].
  destruct (negb _); [|apply Hre; constructor].
  assert (Hm : forall fid n, Forall hook_effect [Req (PostFolderMountpoint fid n)]).
  { intros. constructor; [unfold hook_effect; left; eauto | constructor]. }
  destruct (rename_group_and_group_folder _ _ _) as [r|e]; [|apply Hm].
  destruct r as [| [|] | | | | |]; try (apply Hre, Hm).
  unfold save_then. destruct (db_update _ _ _); cbn [effects]; apply Forall_app; (split; [apply Hm|]).
  - constructor; [unfold hook_effect; auto | apply Hre; constructor].
  - constructor.
Qed.

(** When the group's row exists, [hook_once] fails only by a raising rename
    request. *)
Lemma hook_once_res (g : group) (d : db) :
  existsb (fun r => Z.eqb (gid r) (gid g)) d = true ->
  res (hook_once P is_number srv g d) = Ok tt \/
  exists fid n e, res (hook_once P is_number srv g d) = Raise e /\
    rename_group_and_group_folder srv fid n = Raise e /\
    In (Req (PostFolderMountpoint fid n)) (effects (hook_once P is_number srv g d)).
Proof.
  intro Hex.
  assert (Hre : forall n effs, res (reload (setattr g F_nextcloud_groupfolder_name n) d effs) = Ok tt).
  { intros n effs. destruct (refresh_exists d (setattr g F_nextcloud_groupfolder_name n)) as [r Hr].
    - rewrite gid_setattr. exact Hex.
    - unfold reload. rewrite Hr. reflexivity. }
  unfold hook_once. destruct (rename_guard g); [|left; reflexivity].
  destruct (negb _); [|left; apply Hre].
  destruct (rename_group_and_group_folder _ _ _) as [r|e] eqn:Hr.
  2:{ right. do 3 eexists. split; [reflexivity|]. split; [exact Hr | left; reflexivity]. }
  destruct r as [| [|] | | | | |]; try (left; apply Hre).
  unfold save_then. left.
  destruct (db_update_exists_ok d (setattr g F_nextcloud_groupfolder_name
              (generated_name P is_number d g F_nextcloud_groupfolder_name))
              (copy_fields (setattr g F_nextcloud_groupfolder_name
              (generated_name P is_number d g F_nextcloud_groupfolder_name)) ["nextcloud_groupfolder_name"]))
    as [d2 Hu]; [rewrite gid_setattr; exact Hex|].
  rewrite Hu. cbn [res].
  destruct (db_update_existsb _ _ _ _ (copy_fields_gid _ _) Hu) as [_ Hex2].
  destruct (refresh_exists _ _ Hex2) as [r Hr']. unfold reload. rewrite Hr'. reflexivity.
Qed.

(** [save_then hook_once]: the save, then the hook on the database it
    wrote. *)
Lemma save_hook_cases (d : db) (g : group) (fs : list string) :
  let o := save_then (hook_once P is_number srv) d g fs in
  (exists e, db_update d g (copy_fields g fs) = Raise e /\ o = mkOutcome (Raise e) g d []) \/
  (exists d1, db_update d g (copy_fields g fs) = Ok d1 /\
     let h := hook_once P is_number srv g d1 in
     o = mkOutcome (res h) (obj h) (rows h) (Save fs :: effects h)).
Proof. unfold save_then. destruct (db_update _ _ _); eauto. Qed.

End Facts.

End HookFacts.

(** ** Claims on the name generator *)

Module NameGenClaims.
Import PyStr NameGen Ocs Hooks StrFacts UniqFacts DbFacts Views HookFacts.

Lemma db_update_rows_set (pr : group -> Prop) (d d1 : db) (g : group) (c : group -> group) :
  (forall r, pr (c r)) -> db_update d g c = Ok d1 -> rows_ok pr d1 (gid g).
Proof.
  intros Hc H. unfold db_update in H. destruct (existsb _ d); [|discriminate].
  injection H as <-. intros r' Hin Hid. apply in_map_iff in Hin as (r & <- & Hr).
  destruct (Z.eqb (gid r) (gid g)) eqn:E; [apply Hc|].
  rewrite Hid, Z.eqb_refl in E. discriminate.
Qed.

(** The name the generation path returns is the loop's result. *)
Lemma generate_path (P : bool) (is_number : string -> bool) (srv : server) (d : db) (g : group)
    (f : field) (save force : bool) (u : string) :
  (force = true \/ truthy_str (getattr g f) = false) ->
  res (generate_group_nextcloud_field P is_number srv d g f save force) = Ok u ->
  u = generated_name P is_number d g f.
Proof.
  intros Hpath H. unfold generate_group_nextcloud_field, generate_with in H.
  replace (truthy_str (getattr g f) && negb force) with false in H
    by (destruct Hpath as [-> | ->]; [symmetry; apply andb_false_r | reflexivity]).
  destruct save; cbn [res] in H.
  - destruct (res (group_save _ _ _ _ _ _)); simpl in H; [|discriminate].
    injection H as <-. reflexivity.
  - injection H as <-. reflexivity.
Qed.

(** After a successful generation the object holds the name returned. *)
Lemma generate_obj (P : bool) (is_number : string -> bool) (srv : server) (d : db) (g : group)
    (f : field) (save force : bool) (u : string) :
  res (generate_group_nextcloud_field P is_number srv d g f save force) = Ok u ->
  getattr (obj (generate_group_nextcloud_field P is_number srv d g f save force)) f = Some u.
Proof.
  unfold generate_group_nextcloud_field, generate_with.
  destruct (truthy_str (getattr g f) && negb force) eqn:Ht.
  { cbn [res obj]. intros [= <-]. apply andb_prop in Ht as [Ht _].
    destruct (getattr g f); [reflexivity | discriminate]. }
  set (n := generated_name P is_number d g f).
  destruct save; cbn [res obj]; [|intros [= <-]; apply getattr_setattr].
  rewrite group_save_unfold.
  destruct (save_hook_cases P is_number srv d (setattr g f n) [field_name f])
    as [(e & _ & ->) | (d1 & Hu & ->)]; cbn [res obj]; [discriminate|].
  destruct (res (hook_once _ _ _ _ _)) as [[]|e] eqn:Hr; cbn; [|discriminate]. intros [= <-].
  destruct f.
  - refine (proj1 (hook_once_inv P is_number srv (fun x => nextcloud_group_id x = Some n)
                     _ _ _ _ _ _)); [intros x m Hx; destruct x; exact Hx
                                    | intros x r Hx; destruct r; exact Hx | reflexivity |].
    apply (db_update_rows_set _ _ _ _ _ (fun r => eq_refl) Hu).
  - assert (Hrows : rows_ok (fun x => nextcloud_groupfolder_name x = Some n) d1
                      (gid (setattr g F_nextcloud_groupfolder_name n)))
      by apply (db_update_rows_set _ _ _ _ _ (fun r => eq_refl) Hu).
    destruct (rename_guard (setattr g F_nextcloud_groupfolder_name n)) eqn:Hg.
    + rewrite hook_once_stable by (try exact Hg; cbn; f_equal;
        rewrite (generated_name_update _ _ _ _ _ _ _ _ (copy_fields_gid _ _) Hu eq_refl);
        symmetry; apply generated_name_same; destruct g; reflexivity).
      apply (reload_inv (fun x => nextcloud_groupfolder_name x = Some n)); [reflexivity | exact Hrows].
    + unfold hook_once. rewrite Hg. reflexivity.
Qed.

(** C2 (code_bug): on the failing input the generated group id has length
    66, above the 64-character truncation bound: the suffix " 2" is appended
    after truncation. *)
Theorem generate_field_exceeds_bound :
  match res (generate_group_nextcloud_field false all_digits (Examples.nc_server Examples.rename_ok)
               Examples.long_db Examples.long_group F_nextcloud_group_id true false) with
  | Ok u =>
      u = (Examples.truncated_name ++ " 2")%string /\ String.length u = 66 /\ 64 < String.length u
  | Raise _ => False
  end.
Proof. vm_compute. auto. Qed.

(** C3: when the field already holds a non-empty value and generation is not
    forced, the generator returns that value and changes nothing; and any
    successful non-forced call followed by a second non-forced call on the
    resulting group object returns the same name twice, whatever the
    database holds by then, and the second call changes nothing. *)
Theorem generate_field_idempotent (P : bool) (is_number : string -> bool) (srv : server)
    (d : db) (g : group) (f : field) (save : bool) :
  (forall v, getattr g f = Some v -> v <> ""%string ->
     generate_group_nextcloud_field P is_number srv d g f save false = mkOutcome (Ok v) g d []) /\
  (let o := generate_group_nextcloud_field P is_number srv d g f save false in
   forall u, res o = Ok u ->
   forall d'' save',
   generate_group_nextcloud_field P is_number srv d'' (obj o) f save' false
   = mkOutcome (Ok u) (obj o) d'' []).
Proof.
  split.
  - intros v Hv Hne. unfold generate_group_nextcloud_field, generate_with. rewrite Hv. simpl.
    apply String.eqb_neq in Hne. rewrite Hne. reflexivity.
  - intros o u H d'' save'.
    assert (Hne : String.eqb u "" = false).
    { destruct (truthy_str (getattr g f)) eqn:Ht.
      - unfold o, generate_group_nextcloud_field, generate_with in H. rewrite Ht in H.
        cbn [res andb negb] in H. injection H as <-.
        destruct (getattr g f); [|discriminate]. simpl in Ht. apply negb_true_iff, Ht.
      - rewrite (generate_path _ _ _ _ _ _ _ _ _ (or_intror Ht) H). apply generated_name_nonempty. }
    pose proof (generate_obj _ _ _ _ _ _ _ _ _ H) as Hobj. fold o in Hobj.
    unfold generate_group_nextcloud_field at 1, generate_with. rewrite Hobj. simpl. rewrite Hne.
    reflexivity.
Qed.

(** C4: on the generation path (forced, or no stored value), a name
    returned by the generator differs case-insensitively from the stored
    value of every other group of the database, and is never "admin" in any
    letter case. In particular a second group with the same display name as
    a first one whose value is stored gets a different value. *)
Theorem generate_field_unique (P : bool) (is_number : string -> bool) (srv : server) (d : db)
    (g : group) (f : field) (save force : bool) (u : string) :
  (force = true \/ truthy_str (getattr g f) = false) ->
  res (generate_group_nextcloud_field P is_number srv d g f save force) = Ok u ->
  lower u <> "admin"%string /\
  (forall r v, In r d -> gid r <> gid g -> getattr r f = Some v -> lower v <> lower u).
Proof.
  intros Hpath H.
  pose proof (generate_path _ _ _ _ _ _ _ _ _ Hpath H) as Hu.
  destruct (generated_name_prefix P is_number d g f) as [s Hs]. rewrite <- Hu in Hs.
  unfold generated_name in Hu.
  set (filt := candidate_name P is_number g) in *.
  set (names := excluded_names d g f filt) in *.
  assert (Hfree : ~ In (lower u) names).
  { rewrite <- mem_In, Hu. unfold names. rewrite uniq_loop_free. discriminate. }
  split.
  - intro E. apply Hfree. rewrite E. unfold names, excluded_names.
    apply in_or_app. right. left. reflexivity.
  - intros r v Hr Hid Hv E. apply Hfree. rewrite <- E.
    unfold names, excluded_names. apply in_or_app. left. apply in_map.
    clear - Hr Hid Hv E Hs.
    induction d as [|r' d IH]; [contradiction|].
    simpl. destruct Hr as [<- | Hr].
    + rewrite Hv.
      assert (Hst : startswith (lower v) (lower filt) = true).
      { rewrite E, Hs, lower_append. apply startswith_append. }
      rewrite Hst. apply Z.eqb_neq in Hid. rewrite Hid. simpl. left. reflexivity.
    + destruct (getattr r' f); [destruct (_ && _); [right|]|]; auto.
Qed.

(** C5: with the category prefix disabled, on the generation path, when the
    filtered display name is empty or purely numeric a name returned by the
    generator starts with "Folder": it is non-empty and not purely
    numeric. *)
Theorem generate_field_folder_fallback (is_number : string -> bool) (srv : server) (d : db)
    (g : group) (f : field) (save force : bool) (u : string) :
  (forall s, s <> ""%string -> all_digits s = true -> is_number s = true) ->
  (force = true \/ truthy_str (getattr g f) = false) ->
  res (generate_group_nextcloud_field false is_number srv d g f save force) = Ok u ->
  (filter_name (name g) = ""%string \/ all_digits (filter_name (name g)) = true) ->
  startswith u "Folder" = true /\ all_digits u = false /\ u <> ""%string.
Proof.
  intros Hnum Hpath H Hname.
  pose proof (generate_path _ _ _ _ _ _ _ _ _ Hpath H) as Hu.
  destruct (generated_name_prefix false is_number d g f) as [s Hs]. rewrite <- Hu in Hs.
  unfold candidate_name in Hs.
  replace (String.eqb (filter_name (name g)) "" || is_number (filter_name (name g)))
    with true in Hs.
  2:{ destruct (String.eqb (filter_name (name g)) "") eqn:E; [reflexivity|].
      apply String.eqb_neq in E. destruct Hname as [Hn | Hn]; [contradiction|].
      rewrite (Hnum _ E Hn). reflexivity. }
  simpl in Hs.
  change (u = ("Folder" ++ (substring 0 58 (filter_name (name g)) ++ s))%string) in Hs.
  rewrite Hs. repeat split.
  - apply startswith_append.
  - discriminate.
Qed.

End NameGenClaims.


(** ** Claims on the retry executor *)

Module RetryClaims.
Import Retry RetryFacts.

(** C1: a task whose every call raises is called [len(retry_wait) + 1]
    times (7 with the default schedule [2; 5; 10; 30; 60; 300]); the worker
    then logs "Giving up" and re-raises the last call's exception into the
    future, where [nc_req_callback] catches and logs it; the submitting
    thread gets [None] back. *)
Theorem submit_always_failing {A} (fn : nat -> result A) (retry_wait : list Z) :
  (forall n, exists e, fn n = Raise e) ->
  exists e pre,
    fn (List.length retry_wait) = Raise e /\
    exec_loop A fn retry_wait 0 = (Raise e, pre ++ [LogGiveUp])%list /\
    attempts pre = List.length retry_wait + 1 /\
    submit_with_retry_sched A fn retry_wait =
      (tt, pre ++ [LogGiveUp; LogCallbackException])%list /\
    attempts (snd (submit_with_retry A fn)) = 7.
Proof.
  intro Hfail.
  destruct (exec_loop_always_fails fn Hfail retry_wait 0) as (e & pre & Hl & He & Ha).
  exists e, pre. repeat split; auto.
  - unfold submit_with_retry_sched. rewrite Hl. simpl.
    rewrite <- app_assoc. reflexivity.
  - destruct (exec_loop_always_fails fn Hfail default_retry_wait 0)
      as (e' & pre' & Hl' & _ & Ha').
    unfold submit_with_retry, submit_with_retry_sched. rewrite Hl'. simpl.
    rewrite !attempts_app, Ha'. reflexivity.
Qed.

End RetryClaims.
(** ** Group folders with the hooked save *)

Module FolderFacts.
Import PyStr NameGen Ocs Hooks OcsFolders StrFacts DbFacts Views HookFacts.

Definition others (i : Z) (r : group) : bool := negb (Z.eqb (gid r) i).

(** The rows of [d'] differ from those of [d] at most in the folder name
    and folder id of the rows of group [i]. *)
Definition same_but_folder (i : Z) (d d' : db) : Prop :=
  map forget_folder d' = map forget_folder d /\ filter (others i) d' = filter (others i) d.

(** The effects of recording a folder id: nothing, or the save and what its
    hook did. *)
Definition fid_hook_effects (s : list effect) : Prop :=
  s = [] \/ exists hs, s = save_fid :: hs /\ Forall hook_effect hs.

Lemma same_but_folder_refl (i : Z) (d : db) : same_but_folder i d d.
Proof. split; reflexivity. Qed.

Lemma same_but_folder_trans (i : Z) (d1 d2 d3 : db) :
  same_but_folder i d1 d2 -> same_but_folder i d2 d3 -> same_but_folder i d1 d3.
Proof. intros [H1 H2] [H3 H4]. split; congruence. Qed.

Lemma forget_folder_copy_fid (x r : group) :
  forget_folder (copy_fields x ["nextcloud_groupfolder_id"] r) = forget_folder r.
Proof. destruct r; reflexivity. Qed.

Lemma forget_folder_map (d : db) : map forget_folder d = map forget_fid (map forget_name d).
Proof. rewrite map_map. reflexivity. Qed.

Lemma fid_hook_effects_in (s : list effect) (x : effect) :
  fid_hook_effects s -> In x s -> x = save_fid \/ hook_effect x.
Proof.
  intros [-> | (hs & -> & Hs)] Hx; [destruct Hx|].
  destruct Hx as [<- | Hx]; [left; reflexivity|]. right.
  rewrite Forall_forall in Hs. apply Hs, Hx.
Qed.

Lemma hook_once_same (P : bool) (is_number : string -> bool) (srv : server) (g : group) (d : db) :
  same_but_folder (gid g) d (rows (hook_once P is_number srv g d)).
Proof.
  destruct (hook_once_forget P is_number srv g d) as [H1 H2]. split; [|exact H2].
  rewrite !forget_folder_map, H1. reflexivity.
Qed.

Section Folders.
Variables (P : bool) (is_number : string -> bool) (quota : Z) (srv : server).

Lemma record_folder_id_shape (g : group) (d : db) (v : json) :
  let o := record_folder_id P is_number srv g d v in
  same_but_folder (gid g) d (rows o) /\ fid_hook_effects (effects o).
Proof.
  unfold record_folder_id. destruct (py_int v) as [fid|e].
  2:{ split; [apply same_but_folder_refl | left; reflexivity]. }
  rewrite group_save_unfold.
  destruct (save_hook_cases P is_number srv d (set_groupfolder_id g (Some fid))
              ["nextcloud_groupfolder_id"]) as [(e & _ & ->) | (d1 & Hu & ->)]; cbn [rows effects].
  { split; [apply same_but_folder_refl | left; reflexivity]. }
  split.
  - apply (same_but_folder_trans _ _ d1).
    + split.
      * apply (db_update_map forget_folder _ _ _ _ (forget_folder_copy_fid _) Hu).
      * apply (db_update_others _ _ _ _ (copy_fields_gid _ _) Hu).
    + apply (hook_once_same P is_number srv (set_groupfolder_id g (Some fid)) d1).
  - right. eexists. split; [reflexivity | apply hook_once_effects].
Qed.

(** A folder id recorded on a group whose row exists is kept on the object
    and in the row, and the hook the save runs fails only by a raising
    rename request. *)
Lemma record_folder_id_fid (g : group) (d : db) (v : json) (fid : Z) :
  py_int v = Ok fid -> existsb (fun r => Z.eqb (gid r) (gid g)) d = true ->
  let o := record_folder_id P is_number srv g d v in
  nextcloud_groupfolder_id (obj o) = Some fid /\
  (exists row, refresh_from_db (rows o) g = Ok row /\ nextcloud_groupfolder_id row = Some fid) /\
  (res o = Ok tt \/
   exists fid' n e, res o = Raise e /\ rename_group_and_group_folder srv fid' n = Raise e /\
     In (Req (PostFolderMountpoint fid' n)) (effects o)).
Proof.
  intros Hv Hex o. subst o. unfold record_folder_id. rewrite Hv, group_save_unfold.
  set (g' := set_groupfolder_id g (Some fid)).
  destruct (db_update_exists_ok d g' (copy_fields g' ["nextcloud_groupfolder_id"]) Hex) as [d1 Hu].
  unfold save_then. rewrite Hu. cbn [res obj rows effects].
  set (pr := fun x : group => nextcloud_groupfolder_id x = Some fid).
  destruct (hook_once_inv P is_number srv pr g' d1) as [Ho Hr].
  - intros x n Hx. destruct x. exact Hx.
  - intros x r Hx. destruct r. exact Hx.
  - reflexivity.
  - refine (NameGenClaims.db_update_rows_set _ _ _ _ _ _ Hu). intro r. reflexivity.
  - split; [exact Ho|]. split.
    + assert (Hex' : existsb (fun r => Z.eqb (gid r) (gid g)) (rows (hook_once P is_number srv g' d1)) = true).
      { destruct (db_update_existsb _ _ _ _ (copy_fields_gid _ _) Hu) as [_ Hex1].
        destruct (hook_once_rows P is_number srv g' d1) as [-> | [n Hu2]]; [exact Hex1|].
        exact (proj2 (db_update_existsb _ _ _ _ (copy_fields_gid _ _) Hu2)). }
      destruct (refresh_exists _ _ Hex') as [row Hrow]. exists row. split; [exact Hrow|].
      destruct (refresh_In _ _ _ Hrow) as [Hin Hid]. apply Hr; assumption.
    + destruct (hook_once_res P is_number srv g' d1) as [H | (fid' & n & e & H1 & H2 & H3)].
      * exact (proj2 (db_update_existsb _ _ _ _ (copy_fields_gid _ _) Hu)).
      * left. exact H.
      * right. exists fid', n, e. split; [exact H1|]. split; [exact H2|]. right. exact H3.
Qed.

Lemma grant_shape (fid : json) (gi : string) (g : group) (d : db) (effs : list effect) :
  let o := grant_and_set_quota quota srv fid gi g d effs in
  obj o = g /\ rows o = d /\
  (effects o = (effs ++ [Req (PostFolderGroups fid gi)])%list \/
   (effects o = (effs ++ [Req (PostFolderGroups fid gi); Req (PostFolderQuota fid quota)])%list /\
    quota <> 0%Z /\ quota <> (-3)%Z)).
Proof.
  unfold grant_and_set_quota.
  destruct (response_or_raise (srv (PostFolderGroups fid gi))); simpl;
    [|split; [reflexivity | split; [reflexivity | left; reflexivity]]].
  destruct (negb (Z.eqb quota 0) && negb (Z.eqb quota (-3))) eqn:E;
    [|split; [reflexivity | split; [reflexivity | left; reflexivity]]].
  apply andb_prop in E as [E1 E2]. apply negb_true_iff, Z.eqb_neq in E1, E2.
  rewrite <- app_assoc.
  destruct (response_or_raise (srv (PostFolderQuota fid quota))); simpl;
    (split; [reflexivity | split; [reflexivity | right; auto]]).
Qed.

Definition grant_tail (fid : json) (gi : string) (tail : list effect) : Prop :=
  tail = [] \/ tail = [Req (PostFolderGroups fid gi)] \/
  (tail = [Req (PostFolderGroups fid gi); Req (PostFolderQuota fid quota)] /\
   quota <> 0%Z /\ quota <> (-3)%Z).

Lemma create_new_folder_shape (nm gi : string) (g : group) (d : db) :
  let o := create_new_folder P is_number quota srv nm gi g d [Req GetFolders] in
  same_but_folder (gid g) d (rows o) /\
  exists fid s tail, effects o = (Req GetFolders :: Req (PostFolders nm) :: s ++ tail)%list /\
    fid_hook_effects s /\ grant_tail fid gi tail.
Proof.
  unfold create_new_folder.
  destruct (r <- response_or_raise (srv (PostFolders nm)) ;; dt <- data r ;; getitem dt "id")
    as [folder_id|e].
  2:{ split; [apply same_but_folder_refl|]. exists JNull, [], [].
      split; [reflexivity|]. split; left; reflexivity. }
  destruct (truthy folder_id).
  - pose proof (record_folder_id_shape g d folder_id) as (Hr & He).
    destruct (res (record_folder_id P is_number srv g d folder_id)).
    + match goal with |- context [grant_and_set_quota ?q ?s ?a ?b ?c ?e ?f] =>
        pose proof (grant_shape a b c e f) as (Ho' & Hr' & Hef) end.
      rewrite Hr'. split; [exact Hr|].
      exists folder_id, (effects (record_folder_id P is_number srv g d folder_id)).
      destruct Hef as [Hef | (Hef & Hq1 & Hq2)]; rewrite Hef.
      * eexists. split; [simpl; reflexivity|]. split; [exact He|]. right; left; reflexivity.
      * eexists. split; [simpl; reflexivity|]. split; [exact He|]. right; right; auto.
    + cbn [rows effects]. split; [exact Hr|].
      exists folder_id, (effects (record_folder_id P is_number srv g d folder_id)), [].
      split; [rewrite app_nil_r; reflexivity|]. split; [exact He | left; reflexivity].
  - match goal with |- context [grant_and_set_quota ?q ?s ?a ?b ?c ?e ?f] =>
      pose proof (grant_shape a b c e f) as (Ho' & Hr' & Hef) end.
    rewrite Hr'. split; [apply same_but_folder_refl|].
    exists folder_id, [].
    destruct Hef as [Hef | (Hef & Hq1 & Hq2)]; rewrite Hef.
    + eexists. split; [simpl; reflexivity|]. split; [left; reflexivity|]. right; left; reflexivity.
    + eexists. split; [simpl; reflexivity|]. split; [left; reflexivity|]. right; right; auto.
Qed.

Lemma create_group_folder_shape (nm gi : string) (g : group) (d : db) (flag : bool) :
  let o := create_group_folder P is_number quota srv nm gi g d flag in
  same_but_folder (gid g) d (rows o) /\
  ((exists s, effects o = Req GetFolders :: s /\ fid_hook_effects s) \/
   (exists fid s tail, effects o = (Req GetFolders :: Req (PostFolders nm) :: s ++ tail)%list /\
      fid_hook_effects s /\ grant_tail fid gi tail)).
Proof.
  unfold create_group_folder.
  destruct (r <- response_or_raise (srv GetFolders) ;; data r) as [folders|e].
  2:{ split; [apply same_but_folder_refl|]. left. exists []. split; [reflexivity | left; reflexivity]. }
  destruct (if negb (truthy folders) then Ok [] else vs <- values folders ;; same_name_entries nm vs)
    as [[|first others]|e].
  - pose proof (create_new_folder_shape nm gi g d) as (Hr & He).
    split; [exact Hr|]. right. exact He.
  - set (o := if folder_id_missing g then _ else _).
    assert (Hr : same_but_folder (gid g) d (rows o) /\ fid_hook_effects (effects o)).
    { subst o. destruct (folder_id_missing g).
      - destruct (get first "id") as [i|e].
        + apply record_folder_id_shape.
        + split; [apply same_but_folder_refl | left; reflexivity].
      - split; [apply same_but_folder_refl | left; reflexivity]. }
    destruct Hr as [Hr He].
    destruct (res o); [destruct flag|]; cbn [rows effects];
      (split; [exact Hr|]; left; exists (effects o); split; [reflexivity | exact He]).
  - split; [apply same_but_folder_refl|]. left. exists []. split; [reflexivity | left; reflexivity].
Qed.

End Folders.

End FolderFacts.

(** ** Claims on the OCS client *)

Module OcsClaims.
Import PyStr NameGen Ocs Hooks OcsFolders Views HookFacts FolderFacts.

(** C6: [create_group] turns the structured error 102 into [None] and lets
    every other structured error propagate unchanged. *)
Theorem create_group_already_exists (srv : server) (groupid : string) :
  (forall m, response_or_raise (srv (PostGroups groupid)) = Raise (OCSException 102 m) ->
     create_group srv groupid = Ok None) /\
  (forall c m, c <> 102%Z ->
     response_or_raise (srv (PostGroups groupid)) = Raise (OCSException c m) ->
     create_group srv groupid = Raise (OCSException c m)).
Proof.
  split.
  - intros m H. unfold create_group. rewrite H. reflexivity.
  - intros c m Hc H. unfold create_group. rewrite H.
    apply Z.eqb_neq in Hc. rewrite Hc. reflexivity.
Qed.

(** C7 (corrected): when the folder listing holds a folder with the
    requested mount name, [create_group_folder] sends no folder-creation
    request. When the group's folder id is set, it changes nothing and
    raises the naming-conflict [ValueError] or returns [None] according to
    [raise_on_existing_name]. When the id is missing, it stores the matched
    folder's id on the object and in the group's row by a save; that save
    runs the [post_save] rename hook, whose effects follow it, and the
    result is the one of the flag unless the hook's rename request raised,
    in which case that exception propagates. *)
Theorem create_group_folder_name_taken (P : bool) (is_number : string -> bool) (quota : Z)
    (srv : server) (name group_id : string) (g : group) (d : db) (raise_on_existing_name : bool)
    (kv : list (string * json)) (first : json) (rest : list json) (fid : Z) :
  (r <- response_or_raise (srv GetFolders) ;; data r) = Ok (JObj kv) ->
  same_name_entries name (map snd kv) = Ok (first :: rest) ->
  (i <- get first "id" ;; py_int i) = Ok fid ->
  existsb (fun r => Z.eqb (gid r) (gid g)) d = true ->
  let o := create_group_folder P is_number quota srv name group_id g d raise_on_existing_name in
  let flagres : result (option json) :=
    if raise_on_existing_name
    then Raise (ValueError "A groupfolder with that name already exists")
    else Ok None in
  hd_error (effects o) = Some (Req GetFolders) /\
  (forall n, ~ In (Req (PostFolders n)) (effects o)) /\
  (folder_id_missing g = false -> o = mkOutcome flagres g d [Req GetFolders]) /\
  (folder_id_missing g = true ->
     (exists hs, effects o = Req GetFolders :: save_fid :: hs /\ Forall hook_effect hs) /\
     nextcloud_groupfolder_id (obj o) = Some fid /\
     (exists row, refresh_from_db (rows o) g = Ok row /\ nextcloud_groupfolder_id row = Some fid) /\
     (res o = flagres \/
      exists fid' n e, res o = Raise e /\ rename_group_and_group_folder srv fid' n = Raise e /\
        In (Req (PostFolderMountpoint fid' n)) (effects o))).
Proof.
  intros Hlist Hsame Hid Hrow o flagres. subst o flagres.
  unfold create_group_folder. rewrite Hlist.
  assert (Htr : truthy (JObj kv) = true).
  { destruct kv; [simpl in Hsame; discriminate | reflexivity]. }
  rewrite Htr. simpl negb. cbv iota beta. simpl values. cbn [bind]. rewrite Hsame.
  destruct (folder_id_missing g) eqn:Hm.
  - destruct (get first "id") as [i|e] eqn:Hg; simpl in Hid; [|discriminate].
    destruct (record_folder_id_fid P is_number srv g d i fid Hid Hrow) as (Ho & Hr & Hres).
    destruct (record_folder_id_shape P is_number srv g d i) as (_ & He).
    set (o := record_folder_id P is_number srv g d i) in *.
    assert (Hsave : effects o <> []).
    { unfold o, record_folder_id. rewrite Hid, group_save_unfold. unfold save_then.
      destruct (db_update_exists_ok d (set_groupfolder_id g (Some fid))
                  (copy_fields (set_groupfolder_id g (Some fid)) ["nextcloud_groupfolder_id"]) Hrow)
        as [d1 Hu].
      rewrite Hu. discriminate. }
    destruct He as [He | (hs & He & Hhs)]; [contradiction|].
    assert (Hno : forall n, ~ In (Req (PostFolders n)) (Req GetFolders :: effects o)).
    { intros n [H|H]; [discriminate|].
      destruct (fid_hook_effects_in _ _ (or_intror (ex_intro _ hs (conj He Hhs))) H)
        as [H'|[(f & m & H')|[H'|H']]]; discriminate. }
    destruct Hres as [Hok | (fid' & n & e & H1 & H2 & H3)].
    + rewrite Hok. destruct raise_on_existing_name; cbn [hd_error effects obj rows res app];
        (split; [reflexivity|]; split; [exact Hno|]; split; [discriminate|]; intros _;
         split; [exists hs; rewrite He; split; [reflexivity | exact Hhs]|]; split; [exact Ho|];
         split; [exact Hr | left; reflexivity]).
    + rewrite H1. cbn [hd_error effects obj rows res app].
      split; [reflexivity|]. split; [exact Hno|]. split; [discriminate|]. intros _.
      split; [exists hs; rewrite He; split; [reflexivity | exact Hhs]|]. split; [exact Ho|].
      split; [exact Hr|]. right. exists fid', n, e. split; [reflexivity|].
      split; [exact H2 | right; exact H3].
  - destruct raise_on_existing_name; cbn;
      (split; [reflexivity|]; split; [intros n [H|[]]; discriminate|];
       split; [reflexivity | discriminate]).
Qed.

End OcsClaims.

(** ** Claims on the rename hook *)

Module HookClaims.
Import PyStr NameGen Ocs Hooks Examples.

(** C8 (code_bug): the hook does not always discard an unconfirmed folder
    name. Group 7 is renamed to "New Name" while its row holds the folder
    name "Old Name" and folder id 9. When the server answers the rename
    request with 503, [raise_for_status] raises out of the hook: the object
    is not reloaded and keeps "New Name", the row still holds "Old Name".
    The next save of that object that names the folder-name field (as the
    save of [initialize_nextcloud_for_group] does) writes "New Name" to the
    row; its own hook run then finds the name current, sends no rename and
    only reloads. "New Name" is persisted without any confirmed rename.
    When the numeric folder id is missing the hook does nothing, and in
    particular does not reload the group. *)
Theorem rename_hook_raise_persists_unconfirmed :
  let o := rename_nextcloud_groupfolder_on_group_rename false all_digits
             (nc_server rename_unavailable) recursion_limit false renamed_group renamed_db in
  res o = Raise HTTPError /\
  effects o = [Req (PostFolderMountpoint 9 "New Name")] /\
  nextcloud_groupfolder_name (obj o) = Some "New Name"%string /\
  rows o = renamed_db /\
  nextcloud_groupfolder_name renamed_group = Some "Old Name"%string /\
  (let o2 := group_save false all_digits (nc_server rename_unavailable) (rows o) (obj o)
               ["nextcloud_group_id"; "nextcloud_groupfolder_name"] in
   res o2 = Ok tt /\
   effects o2 = [Save ["nextcloud_group_id"; "nextcloud_groupfolder_name"]; Refresh] /\
   refresh_from_db (rows o2) renamed_group
     = Ok (setattr renamed_group F_nextcloud_groupfolder_name "New Name")) /\
  rename_nextcloud_groupfolder_on_group_rename false all_digits (nc_server rename_false)
    recursion_limit false renamed_group_no_folder_id renamed_db
  = mkOutcome (Ok tt) renamed_group_no_folder_id renamed_db [].
Proof. vm_compute. repeat split; reflexivity. Qed.

End HookClaims.

(** ** Claims on the listing functions *)

Module ListingClaims.
Import PyStr Listing.

Lemma parse_one_file (URL ADMIN : string) (unquote : string -> string)
    (pf : option (string -> bool)) (usr : option nat) (r : dav_response) (f : cloud_file) :
  parse_one URL ADMIN unquote pf usr r = Ok (Some f) ->
  exists fp, href r = Some fp /\ fp <> ""%string /\ endswith fp "/" = false /\
    download_url f = match usr with
                     | Some u => replace_first (URL ++ fp) ADMIN (Provision.get_nc_user_id u)
                     | None => (URL ++ fp)%string
                     end.
Proof.
  unfold parse_one. destruct (href r) as [fp|]; [|discriminate].
  destruct (String.eqb fp "") eqn:E1; [discriminate|].
  destruct (endswith fp "/") eqn:E2; [discriminate|].
  intro H. exists fp. split; [reflexivity|]. split; [apply String.eqb_neq, E1|].
  split; [exact E2|].
  destruct (index_neg _ 1); simpl in H; [|discriminate].
  destruct (index_neg _ 2); simpl in H; [|discriminate].
  destruct (index _ 1); simpl in H; [|discriminate].
  destruct (negb _); [discriminate|].
  destruct (index _ 1); simpl in H; [|discriminate].
  injection H as <-. reflexivity.
Qed.

Lemma parse_all_in (URL ADMIN : string) (unquote : string -> string)
    (pf : option (string -> bool)) (usr : option nat) :
  forall rs files f,
  parse_all URL ADMIN unquote pf usr rs = Ok files -> In f files ->
  exists r, In r rs /\ parse_one URL ADMIN unquote pf usr r = Ok (Some f).
Proof.
  induction rs as [|r rs IH]; simpl; intros files f H Hin.
  - injection H as <-. contradiction.
  - destruct (parse_one URL ADMIN unquote pf usr r) as [o|] eqn:Ho; simpl in H; [|discriminate].
    destruct (parse_all URL ADMIN unquote pf usr rs) as [tl|] eqn:Ht; simpl in H; [|discriminate].
    injection H as <-. destruct o as [f'|].
    + destruct Hin as [<- | Hin].
      * exists r. auto.
      * destruct (IH tl f eq_refl Hin) as (r' & ? & ?). exists r'. auto.
    + destruct (IH tl f eq_refl Hin) as (r' & ? & ?). exists r'. auto.
Qed.

(** C10: without a [<d:multistatus>] element the parser returns the empty
    list; every record it returns comes from a [<d:response>] of the
    document whose href is non-empty and does not end with "/" (folders are
    skipped); its download link is [NEXTCLOUD_URL] followed by that href,
    in which [CloudFile] replaces the first occurrence of the admin name by
    the user's Nextcloud id when a user is given. *)
Theorem parse_response_files_only (URL ADMIN : string) (unquote : string -> string)
    (doc : dav_document) (pf : option (string -> bool)) (usr : option nat) :
  (doc = None -> parse_cloud_files_search_response URL ADMIN unquote doc pf usr = Ok []) /\
  (forall files, parse_cloud_files_search_response URL ADMIN unquote doc pf usr = Ok files ->
   forall f, In f files ->
   exists r fp, In r (match doc with Some l => l | None => [] end) /\
     href r = Some fp /\ fp <> ""%string /\ endswith fp "/" = false /\
     download_url f = match usr with
                      | Some u => replace_first (URL ++ fp) ADMIN (Provision.get_nc_user_id u)
                      | None => (URL ++ fp)%string
                      end).
Proof.
  split.
  - intros ->. reflexivity.
  - intros files H f Hin. destruct doc as [rs|].
    + simpl in H. destruct (parse_all_in _ _ _ _ _ _ _ _ H Hin) as (r & Hr & Hp).
      destruct (parse_one_file _ _ _ _ _ _ _ Hp) as (fp & ?).
      exists r, fp. split; [apply in_rev, Hr | assumption].
    + simpl in H. injection H as <-. contradiction.
Qed.


End ListingClaims.

(** ** Further properties of the embedded code *)

Module RetryExtras.
Import Retry RetryFacts Views.

Lemma exec_loop_recovers_from {A} (fn : nat -> result A) (v : A) :
  forall k retry_wait n,
  (forall i, n <= i < n + k -> exists e, fn i = Raise e) ->
  fn (n + k) = Ok v -> k <= List.length retry_wait ->
  exists evs, exec_loop A fn retry_wait n = (Ok v, evs) /\
    attempts evs = S k /\ ~ In LogGiveUp evs.
Proof.
  induction k as [|k IH]; intros rw n Hf Hv Hk.
  - exists [Attempt n]. rewrite Nat.add_0_r in Hv. destruct rw; simpl; rewrite Hv;
      (split; [reflexivity | split; [reflexivity | intros [H|[]]; discriminate]]).
  - destruct rw as [|dl rest]; simpl in Hk; [lia|].
    destruct (Hf n) as [e He]; [lia|].
    destruct (IH rest (S n)) as (evs & Hl & Ha & Hg).
    + intros i Hi. apply Hf. lia.
    + rewrite <- Hv. f_equal. lia.
    + lia.
    + exists (Attempt n :: LogRetry dl (List.length rest) :: Sleep dl :: evs).
      simpl. rewrite He, Hl. split; [reflexivity|]. split.
      * unfold attempts in *. simpl. rewrite Ha. reflexivity.
      * intros [H|[H|[H|H]]]; try discriminate. contradiction.
Qed.

(** X1: a call that fails on its first [k] attempts and then returns [v],
    with [k] at most the number of delays, is retried until it returns [v]:
    [k + 1] attempts, no "Giving up" log, and the callback logs the result. *)
Theorem submit_recovers {A} (fn : nat -> result A) (retry_wait : list Z) (k : nat) (v : A) :
  (forall i, i < k -> exists e, fn i = Raise e) ->
  fn k = Ok v ->
  k <= List.length retry_wait ->
  exists evs,
    exec_loop A fn retry_wait 0 = (Ok v, evs) /\
    attempts evs = S k /\ ~ In LogGiveUp evs /\
    submit_with_retry_sched A fn retry_wait = (tt, evs ++ [LogCallbackResult])%list.
Proof.
  intros Hf Hv Hk.
  destruct (exec_loop_recovers_from fn v k retry_wait 0) as (evs & Hl & Ha & Hg); auto.
  { intros i Hi. apply Hf. lia. }
  exists evs. unfold submit_with_retry_sched. rewrite Hl. auto.
Qed.

(** X2: in every run of the retry loop the delays slept are a prefix of
    the delay list, in order, and there is one attempt more than sleeps. *)
Theorem exec_loop_sleeps_schedule {A} (fn : nat -> result A) :
  forall retry_wait n,
  let evs := snd (exec_loop A fn retry_wait n) in
  attempts evs = S (List.length (sleeps evs)) /\
  sleeps evs = firstn (List.length (sleeps evs)) retry_wait.
Proof.
  induction retry_wait as [|dl rest IH]; intro n; simpl.
  - destruct (fn n); simpl; auto.
  - destruct (fn n); simpl; [auto|].
    destruct (exec_loop A fn rest (S n)) as [r evs] eqn:E. simpl.
    specialize (IH (S n)). rewrite E in IH. simpl in IH. destruct IH as [Ha Hs].
    unfold attempts in *. simpl. rewrite Ha. split; [reflexivity|].
    f_equal. exact Hs.
Qed.

End RetryExtras.


Module ResponseExtras.
Import PyStr NameGen Ocs Views.

Lemma raise_chain_not_ok (j : json) (x : json) :
  (c <- statuscode j ;; m <- message j ;; @Raise json (OCSException c m)) <> Ok x.
Proof. destruct (statuscode j), (message j); discriminate. Qed.

(** X3: [_response_or_raise] returns a body only for an HTTP success
    whose JSON body has OCS status "ok", and then returns that body. *)
Theorem response_or_raise_ok (r : http_response) (j : json) :
  response_or_raise r = Ok j ->
  http_ok r = true /\ body r = Some j /\ status j = Ok (JStr "ok").
Proof.
  unfold response_or_raise. destruct (http_ok r); simpl; [|discriminate].
  destruct (body r) as [j0|]; [|discriminate].
  destruct (status j0) as [st|] eqn:Est; simpl; [|discriminate].
  intro H.
  assert (Hst : st = JStr "ok" /\ j0 = j).
  { destruct st; try (exfalso; exact (raise_chain_not_ok j0 j H)).
    repeat match type of H with
    | context [match ?x with _ => _ end] =>
        lazymatch type of x with
        | json => fail
        | _ => destruct x
        end
    end; try (exfalso; exact (raise_chain_not_ok j0 j H)).
    injection H as <-. auto. }
  destruct Hst as [-> <-]. auto.
Qed.

End ResponseExtras.



Module OcsExtras.
Import PyStr NameGen Ocs Hooks OcsFolders Views HookFacts FolderFacts.

Lemma eqb_one_nonzero (f : float) : PrimFloat.eqb f 1 = true -> PrimFloat.eqb f 0 = false.
Proof.
  rewrite !FloatAxioms.eqb_spec.
  change (Prim2SF 1) with (S754_finite false 4503599627370496 (-52)).
  change (Prim2SF 0) with (S754_zero false).
  destruct (Prim2SF f) as [s|s| |s m e]; [destruct s; discriminate | destruct s; discriminate | discriminate |].
  intros _. unfold SFeqb, SFcompare. destruct s; reflexivity.
Qed.

(** X4: [rename_group_and_group_folder] returns [True] exactly when the
    mount point request succeeds and its OCS data equals [True]: it is
    [True], the integer [1] or the float [1.0]. *)
Theorem rename_result_true (srv : server) (folder_id : Z) (new_name : string) :
  rename_group_and_group_folder srv folder_id new_name = Ok (JBool true) <->
  exists r, response_or_raise (srv (PostFolderMountpoint folder_id new_name)) = Ok r /\
    (data r = Ok (JBool true) \/ data r = Ok (JInt 1) \/
     exists f, data r = Ok (JFloat f) /\ PrimFloat.eqb f 1 = true).
Proof.
  unfold rename_group_and_group_folder.
  destruct (response_or_raise _) as [r|e]; simpl.
  2:{ split; [discriminate | intros (r & H & _); discriminate]. }
  split.
  - intro H. exists r. split; [reflexivity|].
    destruct (data r) as [dt|e]; simpl in H; [|discriminate].
    destruct dt as [|b|z|f|s|l|kv]; simpl in H; try discriminate.
    + destruct b; [left; reflexivity | discriminate].
    + destruct (Z.eqb z 0) eqn:E0; simpl in H; [discriminate|].
      injection H as H. apply Z.eqb_eq in H. subst. right; left. reflexivity.
    + destruct (PrimFloat.eqb f 0); simpl in H; [discriminate|].
      injection H as H. right; right. exists f. auto.
    + destruct (String.eqb s ""); simpl in H; discriminate.
    + destruct l; simpl in H; discriminate.
    + destruct kv; simpl in H; discriminate.
  - intros (r' & Hr & [H|[H|(f & H & Hf)]]); injection Hr as <-; rewrite H; try reflexivity.
    simpl. rewrite (eqb_one_nonzero f Hf), Hf. reflexivity.
Qed.

Lemma fid_hook_not_folder_request (s : list effect) (x : request) :
  fid_hook_effects s -> In (Req x) s ->
  match x with PostFolderMountpoint _ _ => True | _ => False end.
Proof.
  intros Hs Hx. destruct (fid_hook_effects_in _ _ Hs Hx) as [H|[(f & m & H)|[H|H]]];
    try discriminate. injection H as ->. exact I.
Qed.

(** X5: [create_group_folder] first lists the folders; it grants a folder
    only after creating it under the given name, and only to the given group
    id; it sets a quota only when the configured quota is neither 0 nor -3,
    and only after granting that folder to the group. *)
Theorem create_group_folder_request_order (P : bool) (is_number : string -> bool) (quota : Z)
    (srv : server) (name group_id : string) (g : group) (d : db) (raise_on_existing_name : bool) :
  let effs := effects (create_group_folder P is_number quota srv name group_id g d
                         raise_on_existing_name) in
  hd_error effs = Some (Req GetFolders) /\
  (forall fid gi, In (Req (PostFolderGroups fid gi)) effs ->
     gi = group_id /\
     exists pre post, effs = (pre ++ Req (PostFolderGroups fid gi) :: post)%list /\
       In (Req (PostFolders name)) pre) /\
  (forall fid q, In (Req (PostFolderQuota fid q)) effs ->
     q = quota /\ quota <> 0%Z /\ quota <> (-3)%Z /\
     exists pre post, effs = (pre ++ Req (PostFolderQuota fid q) :: post)%list /\
       In (Req (PostFolderGroups fid group_id)) pre).
Proof.
  intro effs.
  destruct (create_group_folder_shape P is_number quota srv name group_id g d raise_on_existing_name)
    as (_ & [(s & Hs & Hi) | (fid & s & tail & Hs & Hi & Ht)]);
    subst effs; rewrite Hs.
  - split; [reflexivity|]. split.
    + intros fid gi [H|H]; [discriminate|]. exact (match fid_hook_not_folder_request _ _ Hi H with end).
    + intros fid q [H|H]; [discriminate|]. exact (match fid_hook_not_folder_request _ _ Hi H with end).
  - split; [reflexivity|].
    assert (Hs' : forall x, In (Req x) s -> match x with PostFolderMountpoint _ _ => True | _ => False end)
      by (intros x; apply fid_hook_not_folder_request, Hi).
    split.
    + intros fid' gi [H|[H|H]]; try discriminate.
      apply in_app_iff in H as [H|H]; [exact (match Hs' _ H with end)|].
      destruct Ht as [->|[->|(-> & _ & _)]].
      * destruct H.
      * destruct H as [H|[]]. injection H as <- <-. split; [reflexivity|].
        exists (Req GetFolders :: Req (PostFolders name) :: s), [].
        split; [reflexivity | right; left; reflexivity].
      * destruct H as [H|[H|[]]]; [|discriminate]. injection H as <- <-. split; [reflexivity|].
        exists (Req GetFolders :: Req (PostFolders name) :: s), [Req (PostFolderQuota fid quota)].
        split; [reflexivity | right; left; reflexivity].
    + intros fid' q [H|[H|H]]; try discriminate.
      apply in_app_iff in H as [H|H]; [exact (match Hs' _ H with end)|].
      destruct Ht as [->|[->|(-> & Hq1 & Hq2)]].
      * destruct H.
      * destruct H as [H|[]]. discriminate.
      * destruct H as [H|[H|[]]]; [discriminate|]. injection H as <- <-.
        split; [reflexivity|]. split; [exact Hq1|]. split; [exact Hq2|].
        exists ((Req GetFolders :: Req (PostFolders name) :: s) ++ [Req (PostFolderGroups fid group_id)])%list, [].
        split; [rewrite <- app_assoc; reflexivity|].
        apply in_app_iff. right. left. reflexivity.
Qed.

(** X6: [create_group_folder] changes no row of another group, and of the
    group's own row at most the folder id and the folder name (the latter
    through the rename hook of the save). *)
Theorem create_group_folder_only_folder_fields (P : bool) (is_number : string -> bool)
    (quota : Z) (srv : server) (name group_id : string) (g : group) (d : db)
    (raise_on_existing_name : bool) :
  let o := create_group_folder P is_number quota srv name group_id g d raise_on_existing_name in
  map forget_folder (rows o) = map forget_folder d /\
  filter (fun r => negb (Z.eqb (gid r) (gid g))) (rows o) =
  filter (fun r => negb (Z.eqb (gid r) (gid g))) d.
Proof.
  destruct (create_group_folder_shape P is_number quota srv name group_id g d raise_on_existing_name)
    as ([H1 H2] & _). split; assumption.
Qed.

(** X7: when the name is free and the creation answers a non-zero integer
    id, [create_group_folder] stores that id on the object and in the
    group's row. *)
Theorem create_group_folder_keeps_new_id (P : bool) (is_number : string -> bool) (quota : Z)
    (srv : server) (name group_id : string) (g : group) (d : db) (raise_on_existing_name : bool)
    (folders : json) (fid : Z) :
  (r <- response_or_raise (srv GetFolders) ;; data r) = Ok folders ->
  (truthy folders = false \/
   exists kv, folders = JObj kv /\ same_name_entries name (map snd kv) = Ok []) ->
  (r <- response_or_raise (srv (PostFolders name)) ;; dt <- data r ;; getitem dt "id")
    = Ok (JInt fid) ->
  fid <> 0%Z ->
  existsb (fun r => Z.eqb (gid r) (gid g)) d = true ->
  let o := create_group_folder P is_number quota srv name group_id g d raise_on_existing_name in
  nextcloud_groupfolder_id (obj o) = Some fid /\
  exists row, refresh_from_db (rows o) g = Ok row /\ nextcloud_groupfolder_id row = Some fid.
Proof.
  intros Hl Hf Hp Hfid Hrow o. subst o.
  unfold create_group_folder. rewrite Hl.
  replace (if negb (truthy folders) then Ok [] else vs <- values folders ;; same_name_entries name vs)
    with (@Ok (list json) []).
  2:{ destruct Hf as [-> | (kv & -> & Hs)]; [reflexivity|].
      simpl. destruct kv; [reflexivity|]. exact (eq_sym Hs). }
  unfold create_new_folder. rewrite Hp.
  assert (Ht : truthy (JInt fid) = true) by (simpl; apply negb_true_iff, Z.eqb_neq; exact Hfid).
  rewrite Ht.
  destruct (record_folder_id_fid P is_number srv g d (JInt fid) fid eq_refl Hrow) as (Ho & Hr & _).
  set (o := record_folder_id P is_number srv g d (JInt fid)) in *.
  destruct (res o); cbn [obj rows]; [|split; assumption].
  match goal with |- context [grant_and_set_quota ?q ?s ?a ?b ?c ?e ?f] =>
    pose proof (grant_shape quota srv a b c e f) as (Ho' & Hr' & _) end.
  rewrite Ho', Hr'. split; assumption.
Qed.

End OcsExtras.

Module GenFacts.
Import PyStr NameGen Ocs Hooks StrFacts UniqFacts Views HookFacts.

Lemma generate_nosave (P : bool) (is_number : string -> bool) (srv : server) (d : db) (g : group)
    (f : field) :
  exists u, generate_group_nextcloud_field P is_number srv d g f false false =
    mkOutcome (Ok u) (if truthy_str (getattr g f) then g else setattr g f u) d [] /\
    truthy_str (getattr (if truthy_str (getattr g f) then g else setattr g f u) f) = true.
Proof.
  unfold generate_group_nextcloud_field, generate_with.
  destruct (truthy_str (getattr g f)) eqn:T; simpl.
  - eexists. split; [reflexivity | exact T].
  - eexists. split; [reflexivity|]. rewrite getattr_setattr. simpl.
    rewrite generated_name_nonempty. reflexivity.
Qed.

End GenFacts.

Module HookExtras.
Import PyStr NameGen Ocs Hooks DbFacts Views HookFacts.

(** X8: at any depth of nested saves, the rename hook changes nothing in
    the rows but folder names, and nothing at all in the rows of other
    groups. *)
Theorem rename_hook_only_own_folder_name (P : bool) (is_number : string -> bool) (srv : server)
    (depth : nat) :
  forall (created : bool) (g : group) (d : db),
  let o := rename_nextcloud_groupfolder_on_group_rename P is_number srv depth created g d in
  map forget_name (rows o) = map forget_name d /\
  filter (fun r => negb (Z.eqb (gid r) (gid g))) (rows o) =
  filter (fun r => negb (Z.eqb (gid r) (gid g))) d.
Proof.
  induction depth as [|n IH]; intros created g d; [split; reflexivity|].
  cbn [rename_nextcloud_groupfolder_on_group_rename].
  destruct created; [split; reflexivity|].
  destruct (rename_guard g); [|split; reflexivity].
  unfold generate_with. rewrite andb_false_r. cbn [obj].
  set (g1 := setattr g F_nextcloud_groupfolder_name _).
  destruct (negb _); [|rewrite reload_rows; split; reflexivity].
  destruct (rename_group_and_group_folder srv _ _) as [r|e]; [|split; reflexivity].
  destruct r as [| [|] | | | | |]; try (rewrite reload_rows; split; reflexivity).
  unfold save_then. destruct (db_update d g1 _) as [d1|e] eqn:Hu; [|split; reflexivity].
  cbn [rows]. destruct (IH false g1 d1) as [H1 H2]. split.
  - rewrite H1. apply (db_update_map _ _ _ _ _ (copy_name_forget _) Hu).
  - replace (gid g) with (gid g1) by apply gid_setattr. rewrite H2.
    apply (db_update_others _ _ _ _ (copy_fields_gid _ _) Hu).
Qed.

End HookExtras.

Module ProvisionFacts.
Import PyStr NameGen Ocs Hooks OcsFolders Provision DbFacts Views HookFacts FolderFacts GenFacts.

Section Inv.
Variables (P : bool) (is_number : string -> bool) (quota : Z) (srv : server).
Variable pr : group -> Prop.
Hypothesis pr_setattr : forall x n, pr x -> pr (setattr x F_nextcloud_groupfolder_name n).
Hypothesis pr_copy_name : forall x r, pr r -> pr (copy_fields x ["nextcloud_groupfolder_name"] r).
Hypothesis pr_set_fid : forall x v, pr x -> pr (set_groupfolder_id x v).
Hypothesis pr_copy_fid : forall x r, pr r -> pr (copy_fields x ["nextcloud_groupfolder_id"] r).

Lemma record_folder_id_inv (g : group) (d : db) (v : json) :
  pr g -> rows_ok pr d (gid g) ->
  pr (obj (record_folder_id P is_number srv g d v)) /\
  rows_ok pr (rows (record_folder_id P is_number srv g d v)) (gid g).
Proof.
  intros Hg Hd. unfold record_folder_id. destruct (py_int v) as [fid|e]; [|split; assumption].
  rewrite group_save_unfold.
  destruct (save_hook_cases P is_number srv d (set_groupfolder_id g (Some fid))
              ["nextcloud_groupfolder_id"]) as [(e & _ & ->) | (d1 & Hu & ->)]; cbn [obj rows].
  - split; [apply pr_set_fid, Hg | exact Hd].
  - refine (hook_once_inv P is_number srv pr (set_groupfolder_id g (Some fid)) d1 _ _ _ _);
      [exact pr_setattr | exact pr_copy_name | apply pr_set_fid, Hg|].
    refine (db_update_rows_ok _ d _ _ _ (copy_fields_gid _ _) _ Hd Hu). apply pr_copy_fid.
Qed.

Lemma create_group_folder_inv (nm gi : string) (g : group) (d : db) (flag : bool) :
  pr g -> rows_ok pr d (gid g) ->
  let o := create_group_folder P is_number quota srv nm gi g d flag in
  pr (obj o) /\ rows_ok pr (rows o) (gid g).
Proof.
  intros Hg Hd o. subst o. unfold create_group_folder.
  destruct (r <- response_or_raise (srv GetFolders) ;; data r) as [folders|e]; [|split; assumption].
  destruct (if negb (truthy folders) then Ok [] else vs <- values folders ;; same_name_entries nm vs)
    as [[|first others]|e]; [| |split; assumption].
  - unfold create_new_folder.
    destruct (r <- response_or_raise (srv (PostFolders nm)) ;; dt <- data r ;; getitem dt "id")
      as [folder_id|e]; [|split; assumption].
    destruct (truthy folder_id).
    + destruct (record_folder_id_inv g d folder_id Hg Hd) as [Ho Hr].
      destruct (res (record_folder_id P is_number srv g d folder_id)); cbn [obj rows];
        [|split; assumption].
      match goal with |- context [grant_and_set_quota ?q ?s ?a ?b ?c ?e ?f] =>
        pose proof (grant_shape quota srv a b c e f) as (Ho' & Hr' & _) end.
      rewrite Ho', Hr'. split; assumption.
    + match goal with |- context [grant_and_set_quota ?q ?s ?a ?b ?c ?e ?f] =>
        pose proof (grant_shape quota srv a b c e f) as (Ho' & Hr' & _) end.
      rewrite Ho', Hr'. split; assumption.
  - set (o := if folder_id_missing g then _ else _).
    assert (Hr : pr (obj o) /\ rows_ok pr (rows o) (gid g)).
    { subst o. destruct (folder_id_missing g); [|split; assumption].
      destruct (get first "id") as [i|e]; [apply record_folder_id_inv; assumption | split; assumption]. }
    destruct Hr as [Ho Hr].
    destruct (res o); [destruct flag|]; cbn [obj rows]; split; assumption.
Qed.

End Inv.

Lemma refresh_forget_folder (d1 d2 : db) (g r : group) :
  map forget_folder d1 = map forget_folder d2 -> refresh_from_db d1 g = Ok r ->
  exists r', refresh_from_db d2 g = Ok r'.
Proof.
  intros Hm H. destruct (refresh_map_eq forget_folder d1 d2 g r
                           (fun x => ltac:(destruct x; reflexivity)) Hm H) as (r' & Hr' & _).
  eauto.
Qed.

Section Init.
Variables (P : bool) (is_number : string -> bool) (quota : Z) (srv : server)
  (usrv : user_server) (ADMIN_USERNAME : string).

Definition id_is (i : option string) (x : group) : Prop := nextcloud_group_id x = i.
Definition gid_is (i : Z) (x : group) : Prop := gid x = i.

Lemma id_is_pres (i : option string) :
  (forall x n, id_is i x -> id_is i (setattr x F_nextcloud_groupfolder_name n)) /\
  (forall x r, id_is i r -> id_is i (copy_fields x ["nextcloud_groupfolder_name"] r)) /\
  (forall x v, id_is i x -> id_is i (set_groupfolder_id x v)) /\
  (forall x r, id_is i r -> id_is i (copy_fields x ["nextcloud_groupfolder_id"] r)).
Proof. unfold id_is. repeat split; intros x; [intros n | intros r | intros v | intros r]; destruct x; try destruct r; auto. Qed.

Lemma gid_is_pres (i : Z) :
  (forall x n, gid_is i x -> gid_is i (setattr x F_nextcloud_groupfolder_name n)) /\
  (forall x r, gid_is i r -> gid_is i (copy_fields x ["nextcloud_groupfolder_name"] r)) /\
  (forall x v, gid_is i x -> gid_is i (set_groupfolder_id x v)) /\
  (forall x r, gid_is i r -> gid_is i (copy_fields x ["nextcloud_groupfolder_id"] r)).
Proof. unfold gid_is. repeat split; intros x; [intros n | intros r | intros v | intros r]; destruct x; try destruct r; auto. Qed.

Lemma rows_ok_gid (i : Z) (d : db) : rows_ok (gid_is i) d i.
Proof. intros r _ H. exact H. Qed.

(** What a run of [initialize_nextcloud_for_group] does: it fails at the
    save with nothing done, or it saves both names first; its object keeps
    the group and a truthy group id (the stored one when there was one),
    and the group's row holds that id. *)
Lemma initialize_shape (g : group) (d : db) :
  let r := initialize_nextcloud_for_group P is_number quota srv usrv ADMIN_USERNAME g d in
  truthy_str (nextcloud_group_id (robj r)) = true /\
  gid (robj r) = gid g /\
  (truthy_str (nextcloud_group_id g) = true -> nextcloud_group_id (robj r) = nextcloud_group_id g) /\
  ((exists e, rres r = Raise e /\ steps r = [] /\ rrows r = d) \/
   (exists hs rest row,
      steps r = (Eff (Save ["nextcloud_group_id"; "nextcloud_groupfolder_name"]) :: map Eff hs ++ rest)%list /\
      Forall hook_effect hs /\
      (rest = [] \/
       exists rest', rest = Eff (Req (PostGroups (attr_str (nextcloud_group_id (robj r))))) :: rest') /\
      refresh_from_db (rrows r) g = Ok row /\
      nextcloud_group_id row = nextcloud_group_id (robj r))).
Proof.
  unfold initialize_nextcloud_for_group.
  destruct (generate_nosave P is_number srv d g F_nextcloud_group_id) as (u1 & E1 & T1).
  rewrite E1. cbn [obj].
  remember (if truthy_str (getattr g F_nextcloud_group_id) then g
            else setattr g F_nextcloud_group_id u1) as g1 eqn:Eg1.
  destruct (generate_nosave P is_number srv d g1 F_nextcloud_groupfolder_name) as (u2 & E2 & _).
  rewrite E2. cbn [obj].
  remember (if truthy_str (getattr g1 F_nextcloud_groupfolder_name) then g1
            else setattr g1 F_nextcloud_groupfolder_name u2) as g2 eqn:Eg2.
  assert (Hid : nextcloud_group_id g2 = nextcloud_group_id g1)
    by (rewrite Eg2; destruct (truthy_str (getattr g1 F_nextcloud_groupfolder_name)); reflexivity).
  assert (Hgid : gid g2 = gid g).
  { rewrite Eg2. destruct (truthy_str (getattr g1 F_nextcloud_groupfolder_name)); simpl;
    rewrite Eg1; destruct (truthy_str (getattr g F_nextcloud_group_id)); reflexivity. }
  set (ID := nextcloud_group_id g2).
  assert (Tid : truthy_str ID = true) by (unfold ID; rewrite Hid; exact T1).
  assert (Bid : truthy_str (nextcloud_group_id g) = true -> ID = nextcloud_group_id g).
  { intro H. unfold ID. rewrite Hid, Eg1. simpl. rewrite H. reflexivity. }
  clear E1 E2 T1 Hid Eg1 Eg2.
  rewrite group_save_unfold.
  destruct (save_hook_cases P is_number srv d g2 ["nextcloud_group_id"; "nextcloud_groupfolder_name"])
    as [(e & _ & ->) | (d1 & Hu & ->)]; cbn [res obj rows effects].
  { cbn. split; [exact Tid|]. split; [exact Hgid|]. split; [exact Bid|]. left. eauto. }
  destruct (id_is_pres ID) as (I1 & I2 & I3 & I4).
  destruct (gid_is_pres (gid g)) as (G1 & G2 & G3 & G4).
  assert (Hd1 : rows_ok (id_is ID) d1 (gid g2))
    by (refine (NameGenClaims.db_update_rows_set _ _ _ _ _ _ Hu); intro r; destruct r; reflexivity).
  set (h := hook_once P is_number srv g2 d1).
  destruct (hook_once_inv P is_number srv (id_is ID) g2 d1 I1 I2 eq_refl Hd1) as [Ih Ihr].
  destruct (hook_once_inv P is_number srv (gid_is (gid g)) g2 d1 G1 G2 Hgid
              ltac:(rewrite Hgid; apply rows_ok_gid)) as [Gh _].
  fold h in Ih, Ihr, Gh. unfold id_is in Ih. unfold gid_is in Gh.
  assert (Hex : existsb (fun r => Z.eqb (gid r) (gid g)) (rows h) = true).
  { rewrite <- Hgid. destruct (db_update_existsb _ _ _ _ (copy_fields_gid _ _) Hu) as [_ Hex1].
    unfold h. destruct (hook_once_rows P is_number srv g2 d1) as [-> | [n Hu2]]; [exact Hex1|].
    exact (proj2 (db_update_existsb _ _ _ _ (copy_fields_gid _ _) Hu2)). }
  destruct (refresh_exists _ _ Hex) as [row Hrow].
  assert (Hrowid : nextcloud_group_id row = ID).
  { destruct (refresh_In _ _ _ Hrow) as [Hin Hrg]. apply Ihr; [exact Hin | rewrite Hrg; symmetry; exact Hgid]. }
  assert (Hhs : Forall hook_effect (effects h)) by apply hook_once_effects.
  cbn [map].
  destruct (res h) as [[]|e].
  2:{ cbn [rres robj rrows steps]. rewrite Ih, Gh. split; [exact Tid|]. split; [reflexivity|].
      split; [exact Bid|]. right. exists (effects h), [], row.
      split; [rewrite app_nil_r; reflexivity|]. split; [exact Hhs|]. split; [left; reflexivity|].
      split; [exact Hrow | exact Hrowid]. }
  rewrite Ih.
  destruct (create_group srv (attr_str ID)) as [cg|e].
  2:{ cbn [rres robj rrows steps]. rewrite Ih, Gh. split; [exact Tid|]. split; [reflexivity|].
      split; [exact Bid|]. right. exists (effects h), [Eff (Req (PostGroups (attr_str ID)))], row.
      split; [reflexivity|]. split; [exact Hhs|]. split; [right; eexists; reflexivity|].
      split; [exact Hrow | exact Hrowid]. }
  set (o := create_group_folder P is_number quota srv _ _ (obj h) (rows h) false).
  destruct (create_group_folder_inv P is_number quota srv (id_is ID) I1 I2 I3 I4
              (attr_str (nextcloud_groupfolder_name (obj h))) (attr_str ID) (obj h) (rows h) false
              Ih ltac:(rewrite Gh; intros r Hr Hrg; apply Ihr; [exact Hr | rewrite Hrg; symmetry; exact Hgid]))
    as [Io Ior].
  destruct (create_group_folder_inv P is_number quota srv (gid_is (gid g)) G1 G2 G3 G4
              (attr_str (nextcloud_groupfolder_name (obj h))) (attr_str ID) (obj h) (rows h) false
              Gh ltac:(rewrite Gh; apply rows_ok_gid)) as [Go _].
  destruct (create_group_folder_shape P is_number quota srv
              (attr_str (nextcloud_groupfolder_name (obj h))) (attr_str ID) (obj h) (rows h) false)
    as ([Hsame _] & _).
  fold o in Io, Ior, Go, Hsame. unfold id_is in Io. unfold gid_is in Go.
  destruct (refresh_forget_folder _ _ g row (eq_sym Hsame) Hrow) as [row' Hrow'].
  assert (Hrowid' : nextcloud_group_id row' = ID).
  { destruct (refresh_In _ _ _ Hrow') as [Hin Hrg]. apply Ior; [exact Hin | rewrite Hrg; symmetry; exact Gh]. }
  assert (Fin : truthy_str (nextcloud_group_id (obj o)) = true /\ gid (obj o) = gid g /\
                (truthy_str (nextcloud_group_id g) = true ->
                   nextcloud_group_id (obj o) = nextcloud_group_id g)).
  { rewrite Io. split; [exact Tid|]. split; [exact Go | exact Bid]. }
  clearbody o.
  destruct (res o); [destruct (add_user_to_group usrv _ _)|]; cbn [rres robj rrows steps];
    (destruct Fin as (F1 & F2 & F3); split; [exact F1|]; split; [exact F2|]; split; [exact F3|];
     right; exists (effects h); eexists; exists row';
     split; [rewrite <- !app_assoc; reflexivity|]; split; [exact Hhs|];
     split; [right; rewrite Io; eexists; reflexivity|];
     split; [exact Hrow' | rewrite Hrowid', Io; reflexivity]).
Qed.

End Init.

End ProvisionFacts.

Module ProvisionExtras.
Import PyStr NameGen Ocs Provision StrFacts ProvisionFacts Views.

(** X9: [get_nc_user_id] is injective: distinct platform users get
    distinct Nextcloud user ids. *)
Theorem get_nc_user_id_injective (m n : nat) :
  get_nc_user_id m = get_nc_user_id n -> m = n.
Proof. unfold get_nc_user_id. intro H. apply show_nat_inj, (append_cancel_l _ _ _ H). Qed.

(** X10: for every membership the join receiver submits, the leave
    receiver submits its removal, for the same user and group id, also once
    the cloud app is deactivated. *)
Theorem joined_task_has_leave_task (u : nat) (g : group) (uid gr : string) (apps : list string) :
  In (TaskAddUser uid gr) (user_joined_group_receiver_sub u g) ->
  user_left_group_receiver_sub u (with_deactivated_apps g apps) = [TaskRemoveUser uid gr].
Proof.
  unfold user_joined_group_receiver_sub, user_left_group_receiver_sub.
  destruct (negb _); [|intros []].
  simpl. destruct (nextcloud_group_id g) as [gi|]; [|intros []].
  intros [H|[]]. injection H as <- <-. reflexivity.
Qed.

Section Init.
Variables (P : bool) (is_number : string -> bool) (quota : Z) (srv : server)
  (usrv : user_server) (ADMIN_USERNAME : string).


(** X12: rerunning [initialize_nextcloud_for_group] on the object of a
    first run keeps its (truthy) group id and the group, whatever the rows. *)
Theorem initialize_rerun_keeps_ids (g : group) (d d' : db) :
  let r1 := initialize_nextcloud_for_group P is_number quota srv usrv ADMIN_USERNAME g d in
  let r2 := initialize_nextcloud_for_group P is_number quota srv usrv ADMIN_USERNAME (robj r1) d' in
  truthy_str (nextcloud_group_id (robj r2)) = true /\
  nextcloud_group_id (robj r2) = nextcloud_group_id (robj r1) /\
  gid (robj r2) = gid g.
Proof.
  intros r1 r2.
  destruct (initialize_shape P is_number quota srv usrv ADMIN_USERNAME g d)
    as (A1 & A2 & _). fold r1 in A1, A2.
  destruct (initialize_shape P is_number quota srv usrv ADMIN_USERNAME (robj r1) d')
    as (B1 & B2 & B3 & _). fold r2 in B1, B2, B3.
  split; [exact B1|]. split; [exact (B3 A1)|].
  rewrite B2. exact A2.
Qed.


End Init.

End ProvisionExtras.

Module SyncFacts.
Import PyStr NameGen Ocs Hooks Provision Sync Views HookFacts.

Section Cmd.
Variables (usrv : user_server) (DEBUG P : bool) (is_number : string -> bool) (srv : server)
  (ADMIN_USERNAME : string).

Lemma grows_refl (c : group_counters) : grows DEBUG c c.
Proof. unfold grows. lia. Qed.

Lemma grows_trans (a b c : group_counters) : grows DEBUG a b -> grows DEBUG b c -> grows DEBUG a c.
Proof. unfold grows. intros (? & ? & ?) (? & ? & ?). repeat split; [congruence|lia|]. intuition congruence. Qed.

Lemma hook_effect_step (e : effect) : hook_effect e -> group_sync_step (Eff e).
Proof.
  intros [(fid & n & ->) | [-> | ->]]; unfold group_sync_step.
  - right; left. eauto.
  - right; right; left. reflexivity.
  - right; right; right; left. reflexivity.
Qed.

(** Saving a generated group id performs the save and the rename hook's
    steps. *)
Lemma generate_id_effects (d : db) (g : group) (e : effect) :
  In e (effects (generate_group_nextcloud_field P is_number srv d g F_nextcloud_group_id true false)) ->
  group_sync_step (Eff e).
Proof.
  unfold generate_group_nextcloud_field, generate_with.
  destruct (truthy_str (getattr g F_nextcloud_group_id) && negb false); [intros []|].
  cbn [effects]. rewrite group_save_unfold.
  destruct (save_hook_cases P is_number srv d (setattr g F_nextcloud_group_id
              (generated_name P is_number d g F_nextcloud_group_id)) [field_name F_nextcloud_group_id])
    as [(e' & _ & ->)|(d1 & _ & ->)]; cbn [effects]; [intros []|].
  intros [<-|He]; [left; reflexivity|].
  apply hook_effect_step. exact (proj1 (Forall_forall _ _) (hook_once_effects P is_number srv _ _) e He).
Qed.

Lemma add_members_spec (gi : string) : forall uids c,
  let '(r, sts) := add_members usrv DEBUG gi c uids in
  (forall s, In s sts -> exists u, In u uids /\ s = UReq (AddUserToGroup u gi)) /\
  (forall c', r = Ok c' -> g_counter c' = g_counter c /\ g_created c' = g_created c /\ grows DEBUG c c').
Proof.
  induction uids as [|u uids IH]; intro c; simpl.
  - split; [intros _ []|]. intros c' [= <-]. split; [reflexivity|]. split; [reflexivity|]. apply grows_refl.
  - set (next := match add_user_to_group usrv u gi with
                 | Ok _ => _ | Raise _ => _ end).
    assert (Hn : forall c1, next = Ok c1 ->
                 g_counter c1 = g_counter c /\ g_created c1 = g_created c /\ grows DEBUG c c1).
    { intros c1. unfold next, grows, add_error.
      destruct (add_user_to_group usrv u gi) as [|[]]; try (intros [= <-]; simpl; lia);
      destruct DEBUG; try discriminate; intros [= <-]; simpl; lia. }
    clearbody next. destruct next as [c1|e].
    + specialize (IH c1). destruct (add_members usrv DEBUG gi c1 uids) as [r sts].
      destruct IH as [IS IC]. split.
      * intros s [<-|Hs]; [exists u; auto|]. destruct (IS s Hs) as (v & ? & ?). exists v; auto.
      * intros c' Hr. destruct (IC c' Hr) as (A & B & C). destruct (Hn c1 eq_refl) as (A' & B' & C').
        split; [congruence|]. split; [congruence|]. exact (grows_trans _ _ _ C' C).
    + split; [|discriminate]. intros s [<-|[]]. exists u; auto.
Qed.

Lemma sync_one_group_spec (c : group_counters) (d : db) (g : group) (members : list nat) :
  let '(r, _, sts) := sync_one_group usrv DEBUG P is_number srv ADMIN_USERNAME c d g members in
  (forall s, In s sts -> group_sync_step s) /\
  (forall c', r = Ok c' -> g_counter c' = g_counter c /\ grows DEBUG c c').
Proof.
  unfold sync_one_group.
  destruct (mem "cosinnus_cloud" (deactivated_apps g)).
  { split; [intros _ []|]. intros c' [= <-]. split; [reflexivity | apply grows_refl]. }
  set (gen := if negb (truthy_str (nextcloud_group_id g)) then _ else _).
  assert (Hg : forall r1 d1 s0, gen = (r1, d1, s0) -> forall s, In s s0 -> group_sync_step s).
  { unfold gen. destruct (negb _).
    - intros r1 d1 s0 E s Hs. injection E as _ _ <-.
      apply in_map_iff in Hs. destruct Hs as (e & <- & He). exact (generate_id_effects _ _ _ He).
    - intros r1 d1 s0 E x Hx. injection E as _ _ E. subst s0. destruct Hx. }
  clearbody gen. destruct gen as [[[g1|e] d1] s0]; specialize (Hg _ _ _ eq_refl);
    [|split; [exact Hg|discriminate]].
  set (gi := attr_str (nextcloud_group_id g1)).
  assert (H1 : forall s, In s (s0 ++ [Eff (Req (PostGroups gi))])%list -> group_sync_step s).
  { intros s Hs. apply in_app_or in Hs. destruct Hs as [Hs|[<-|[]]].
    - exact (Hg s Hs).
    - do 4 right; left. eexists; reflexivity. }
  set (created := match create_group srv gi with Ok _ => _ | Raise _ => _ end).
  assert (Hc : forall c1 b, created = Ok (c1, b) ->
             g_counter c1 = g_counter c /\ g_folders_created c1 = g_folders_created c /\
             g_errors c <= g_errors c1 /\
             (if b then g_created c1 = S (g_created c) /\ g_errors c1 = g_errors c
              else g_created c1 = g_created c)).
  { intros c1 b. unfold created, add_error.
    destruct (create_group srv gi) as [|[]];
      try (intros [= <- <-]; simpl; lia);
      try (destruct (Z.eqb _ 102); intros [= <- <-]; simpl; lia);
      destruct DEBUG; try discriminate; intros [= <- <-]; simpl; lia. }
  clearbody created. destruct created as [[c1 b]|e]; [|split; [exact H1|discriminate]].
  specialize (Hc c1 b eq_refl).
  set (folder := if b then _ else Ok c1).
  assert (Hf : forall c2, folder = Ok c2 -> g_counter c2 = g_counter c /\ grows DEBUG c c2).
  { intros c2. unfold folder, create_group_folder_two_args, grows, add_error.
    destruct b.
    - destruct DEBUG; [discriminate|]. intros [= <-]; simpl; lia.
    - intros [= <-]. destruct DEBUG; lia. }
  clearbody folder. destruct folder as [c2|e]; [|split; [exact H1|discriminate]].
  specialize (Hf c2 eq_refl).
  pose proof (add_members_spec gi (map get_nc_user_id members ++ [ADMIN_USERNAME])%list c2) as HA.
  destruct (add_members usrv DEBUG gi c2 _) as [r sts]. destruct HA as [AS AC].
  split.
  - intros s Hs. apply in_app_or in Hs. destruct Hs as [Hs|Hs]; [exact (H1 s Hs)|].
    destruct (AS s Hs) as (u & _ & ->). do 5 right. eauto.
  - intros c' Hr. destruct (AC c' Hr) as (A & B & C). destruct Hf as [Hf1 Hf2].
    split; [congruence|]. exact (grows_trans _ _ _ Hf2 C).
Qed.

Lemma sync_groups_loop_spec : forall pgs c d,
  let '(r, _, sts) := sync_groups_loop usrv DEBUG P is_number srv ADMIN_USERNAME c d pgs in
  (forall s, In s sts -> group_sync_step s) /\
  (forall c', r = Ok c' -> g_counter c' = g_counter c + List.length pgs /\ grows DEBUG c c').
Proof.
  induction pgs as [|[g ms] pgs IH]; intros c d; simpl.
  - split; [intros _ []|]. intros c' [= <-]. split; [lia | apply grows_refl].
  - set (c0 := mkGroupCounters _ _ _ _ _).
    pose proof (sync_one_group_spec c0 d g ms) as H1.
    destruct (sync_one_group usrv DEBUG P is_number srv ADMIN_USERNAME c0 d g ms) as [[[c1|e] d1] sts].
    + destruct H1 as [S1 C1]. specialize (IH c1 d1).
      destruct (sync_groups_loop usrv DEBUG P is_number srv ADMIN_USERNAME c1 d1 pgs) as [[r d2] sts'].
      destruct IH as [S2 C2]. split.
      * intros s Hs. apply in_app_or in Hs. destruct Hs; auto.
      * intros c' Hr. destruct (C2 c' Hr) as [A B]. destruct (C1 c1 eq_refl) as [A' B'].
        split; [simpl in A'; lia|]. apply (grows_trans c c0 c'); [|exact (grows_trans _ _ _ B' B)].
        unfold grows, c0. simpl. lia.
    + destruct H1 as [S1 _]. split; [exact S1 | discriminate].
Qed.

End Cmd.

End SyncFacts.

Module SyncExtras.
Import PyStr NameGen Ocs Provision Sync SyncFacts Views.

(** X14: [sync_nextcloud_groups] only saves generated group ids (with the
    steps of the rename hook that each such save runs: a folder mount point
    request, a save of the folder name, a reload), creates Nextcloud groups
    and adds users to groups: it never creates a group folder or grants or
    sets a quota on one. *)
Theorem sync_groups_only_ids_groups_members (usrv : user_server) (DEBUG P : bool)
    (is_number : string -> bool) (srv : server) (ADMIN_USERNAME : string)
    (d : db) (pgs : list (group * list nat)) (s : step) :
  In s (snd (sync_nextcloud_groups usrv DEBUG P is_number srv ADMIN_USERNAME d pgs)) ->
  s = Eff (Save ["nextcloud_group_id"]) \/
  (exists fid n, s = Eff (Req (PostFolderMountpoint fid n))) \/
  s = Eff (Save ["nextcloud_groupfolder_name"]) \/
  s = Eff Refresh \/
  (exists gi, s = Eff (Req (PostGroups gi))) \/
  (exists u gi, s = UReq (AddUserToGroup u gi)).
Proof.
  unfold sync_nextcloud_groups.
  pose proof (sync_groups_loop_spec usrv DEBUG P is_number srv ADMIN_USERNAME pgs
                (mkGroupCounters 0 0 0 0 0) d) as H.
  destruct (sync_groups_loop _ _ _ _ _ _ _ _ _) as [[r d1] sts]. destruct H as [H _].
  exact (H s).
Qed.

(** X15: when [sync_nextcloud_groups] completes, it has counted every group
    and no group folder, at least as many errors as created groups (its
    folder call always raises), and no created group under DEBUG. *)
Theorem sync_groups_counters (usrv : user_server) (DEBUG P : bool)
    (is_number : string -> bool) (srv : server) (ADMIN_USERNAME : string)
    (d : db) (pgs : list (group * list nat)) (c : group_counters) :
  fst (fst (sync_nextcloud_groups usrv DEBUG P is_number srv ADMIN_USERNAME d pgs)) = Ok (Some c) ->
  g_counter c = List.length pgs /\ g_folders_created c = 0 /\ g_created c <= g_errors c /\
  (DEBUG = true -> g_created c = 0).
Proof.
  unfold sync_nextcloud_groups.
  pose proof (sync_groups_loop_spec usrv DEBUG P is_number srv ADMIN_USERNAME pgs
                (mkGroupCounters 0 0 0 0 0) d) as H.
  destruct (sync_groups_loop _ _ _ _ _ _ _ _ _) as [[r d1] sts]. destruct H as [_ H].
  destruct r as [c'|e]; simpl.
  - intros [= <-]. destruct (H c' eq_refl) as (A & B & C & D). simpl in *. split; [lia|split; [lia|split; [lia|]]]. intro Hd. rewrite (D Hd). reflexivity.
  - destruct DEBUG; discriminate.
Qed.

End SyncExtras.

Module UserSyncFacts.
Import PyStr NameGen Ocs Provision Sync Views.

Lemma py_in_str_names (x : string) (names : list string) :
  py_in_str x (JList (map JStr names)) = Ok (mem x names).
Proof.
  unfold py_in_str, mem. f_equal. induction names as [|n names IH]; simpl; [reflexivity|].
  rewrite IH, String.eqb_sym. reflexivity.
Qed.

Lemma sync_users_loop_steps (usrv : user_server) (DEBUG : bool) (existing : json) :
  forall users c s, In s (snd (sync_users_loop usrv DEBUG existing c users)) ->
  exists u, In u users /\ s = UReq (CreateUser (get_nc_user_id u)).
Proof.
  induction users as [|u users IH]; intros c s; simpl; [intros []|].
  destruct (py_in_str _ existing) as [[|]|e]; simpl.
  - intro H. destruct (IH _ s H) as (v & ? & ?). eauto.
  - destruct (match create_user_from_obj usrv u with Ok _ => _ | Raise _ => _ end) as [c'|e].
    + specialize (IH c'). destruct (sync_users_loop usrv DEBUG existing c' users) as [r sts].
      simpl in *. intros [<-|H]; [eauto|]. destruct (IH s H) as (v & ? & ?). eauto.
    + intros [<-|[]]. eauto.
  - intros [].
Qed.

Lemma sync_users_loop_names (usrv : user_server) (names : list string) :
  forall users c, exists c',
  sync_users_loop usrv false (JList (map JStr names)) c users =
    (Ok c', map (fun u => UReq (CreateUser (get_nc_user_id u)))
                (filter (fun u => negb (mem (get_nc_user_id u) names)) users)) /\
  u_counter c' = u_counter c + List.length users /\
  u_created c' + u_errors c' <=
    u_created c + u_errors c + List.length (filter (fun u => negb (mem (get_nc_user_id u) names)) users).
Proof.
  induction users as [|u users IH]; intro c.
  - exists c. split; [reflexivity|]. simpl. lia.
  - cbn [sync_users_loop]. rewrite py_in_str_names. cbn [filter].
    destruct (mem (get_nc_user_id u) names); simpl.
    + destruct (IH (mkUserCounters (S (u_counter c)) (u_created c) (u_errors c))) as (c' & E & A & B).
      exists c'. rewrite E. simpl in *. split; [reflexivity|]. lia.
    + set (c0 := mkUserCounters (S (u_counter c)) (u_created c) (u_errors c)).
      set (next := match create_user_from_obj usrv u with Ok _ => _ | Raise _ => _ end).
      assert (Hn : exists c1, next = Ok c1 /\ u_counter c1 = u_counter c0 /\
                     u_created c1 + u_errors c1 <= S (u_created c0 + u_errors c0)).
      { unfold next. destruct (create_user_from_obj usrv u) as [|[]];
          try (eexists; split; [reflexivity|]; simpl; lia).
        destruct (Z.eqb _ 102); (eexists; split; [reflexivity|]; simpl; lia). }
      destruct Hn as (c1 & -> & A1 & B1).
      destruct (IH c1) as (c' & E & A & B). rewrite E. exists c'.
      split; [reflexivity|]. simpl in *. lia.
Qed.

End UserSyncFacts.

Module UserSyncExtras.
Import PyStr NameGen Ocs Provision Sync UserSyncFacts Views.

(** X16: [sync_nextcloud_users] lists the Nextcloud users and otherwise only
    creates users, each for a platform user of its input. *)
Theorem sync_users_only_lists_and_creates (usrv : user_server) (DEBUG : bool)
    (users : list nat) (s : step) :
  In s (snd (sync_nextcloud_users usrv DEBUG users)) ->
  s = UReq ListUsers \/ exists u, In u users /\ s = UReq (CreateUser (get_nc_user_id u)).
Proof.
  unfold sync_nextcloud_users.
  destruct list_all_users as [existing|e]; simpl.
  - pose proof (sync_users_loop_steps usrv DEBUG existing users (mkUserCounters 0 0 0)) as H.
    destruct (sync_users_loop usrv DEBUG existing _ users) as [r sts]. simpl in *.
    intros [<-|Hs]; [auto | right; exact (H s Hs)].
  - intros [<-|[]]. auto.
Qed.

(** X17: when the listing answers a list of user ids and DEBUG is off,
    [sync_nextcloud_users] completes, creates exactly the platform users
    missing from it, in order, counts every user, and counts at most one
    creation or error per missing user. *)
Theorem sync_users_creates_missing (usrv : user_server) (names : list string) (users : list nat) :
  list_all_users usrv = Ok (JList (map JStr names)) ->
  exists c,
    sync_nextcloud_users usrv false users =
      (Ok (Some c), UReq ListUsers :: map (fun u => UReq (CreateUser (get_nc_user_id u)))
                      (filter (fun u => negb (mem (get_nc_user_id u) names)) users)) /\
    u_counter c = List.length users /\
    u_created c + u_errors c <=
      List.length (filter (fun u => negb (mem (get_nc_user_id u) names)) users).
Proof.
  intro H. unfold sync_nextcloud_users. rewrite H.
  destruct (sync_users_loop_names usrv names users (mkUserCounters 0 0 0)) as (c & E & A & B).
  rewrite E. exists c. simpl in *. split; [reflexivity|]. lia.
Qed.

End UserSyncExtras.


Module WidgetExtras.
Import PyStr NameGen Ocs Provision Widgets Views.

Lemma build_rows_ok (fs : list Listing.cloud_file) (rs : list row) :
  build_rows fs = Ok rs -> fs = [] /\ rs = [].
Proof. destruct fs; simpl; [intros [= <-]; auto | discriminate]. Qed.

(** X19: [Latest.get_data] returns only with no rows and a zero file count,
    and only for a group with a Nextcloud id: a [CloudFile] of a non-empty
    page cannot be unpacked into four names. *)
Theorem latest_get_data_ok_empty (lgf : string -> result (list Listing.cloud_file))
    (amount : json) (g : group) (offset : Z) (rs : list row) (n : nat) (more : bool) :
  latest_get_data lgf amount g offset = Ok (rs, n, more) ->
  rs = [] /\ n = 0 /\ truthy_str (nextcloud_group_id g) = true.
Proof.
  unfold latest_get_data.
  destruct (py_int amount) as [count|e]; simpl; [|discriminate].
  destruct (truthy_str (nextcloud_group_id g)); [|discriminate].
  destruct (lgf _) as [files|e]; simpl; [|discriminate].
  set (fs := if Z.eqb count 0 then files else _).
  destruct (build_rows fs) as [rows|e] eqn:Eb; simpl; [|discriminate].
  destruct (build_rows_ok _ _ Eb) as [Hf Hr]. rewrite Hf.
  intros [= <- <- _]. auto.
Qed.

(** X21: [get_items_from_dataset] returns one item per document whose info
    can be read, and every such document has a link. *)
Theorem get_items_one_per_info_doc (URL : string) (escape py_str : json -> string)
    (docs : list json) (items : list (string * string * string)) :
  get_items_from_dataset URL escape py_str docs = Ok items ->
  List.length items = List.length (filter has_info docs) /\
  (forall doc, In doc docs -> has_info doc = true -> exists l, getitem doc "link" = Ok l).
Proof.
  revert items. induction docs as [|doc docs IH]; intros items; simpl.
  - intros [= <-]. split; [reflexivity | intros _ []].
  - unfold has_info at 1. destruct (doc_info doc) as [[f dr]|[]] eqn:Ed; try discriminate.
    + destruct (getitem doc "link") as [l|e] eqn:El; simpl; [|discriminate].
      destruct (get_items_from_dataset URL escape py_str docs) as [its|e]; simpl; [|discriminate].
      intros [= <-]. destruct (IH its eq_refl) as [A B]. split; [simpl; f_equal; exact A|].
      intros d [<-|Hd] Hi; [eauto | exact (B d Hd Hi)].
    + intro H. destruct (IH items H) as [A B]. split; [exact A|].
      intros d [<-|Hd] Hi; [unfold has_info in Hi; rewrite Ed in Hi; discriminate | exact (B d Hd Hi)].
Qed.

End WidgetExtras.

Module ListingExtras.
Import PyStr NameGen Listing Views.

Lemma parse_one_filter (URL ADMIN : string) (unquote : string -> string)
    (p : string -> bool) (usr : option nat) (r : dav_response) (f : cloud_file) :
  parse_one URL ADMIN unquote (Some p) usr r = Ok (Some f) -> p (path f) = true.
Proof.
  unfold parse_one. destruct (href r) as [fp|]; [|discriminate].
  destruct (String.eqb fp ""); [discriminate|].
  destruct (endswith fp "/"); [discriminate|].
  destruct (index_neg _ 1); simpl; [|discriminate].
  destruct (index_neg _ 2); simpl; [|discriminate].
  destruct (index _ 1) as [ap|]; simpl; [|discriminate].
  destruct (p ap) eqn:Ep; simpl; [|discriminate].
  destruct (index _ 1); simpl; [|discriminate].
  intros [= <-]. simpl. exact Ep.
Qed.

(** X22: every file [list_user_group_folders_files] returns lies under
    "/<quoted name>/" for the non-empty folder name of one of the groups
    [get_for_user] returned. *)
Theorem user_folder_files_under_own_folders (URL ADMIN : string) (unquote : string -> string)
    (soup : string -> dav_document) (quote : string -> string) (search : result string)
    (get_for_user : result (list group)) (usr : option nat) (files : list cloud_file) (f : cloud_file) :
  list_user_group_folders_files URL ADMIN unquote soup quote search get_for_user usr = Ok files ->
  In f files ->
  exists user_groups g n, get_for_user = Ok user_groups /\ In g user_groups /\
    nextcloud_groupfolder_name g = Some n /\ n <> "" /\
    startswith (path f) ("/" ++ quote n ++ "/") = true.
Proof.
  unfold list_user_group_folders_files. destruct search as [txt|e]; [|intros [= <-] []].
  destruct get_for_user as [ugs|e]; simpl; [|discriminate].
  unfold parse_cloud_files_search_response.
  destruct (soup txt) as [rs|]; [|intros [= <-] []].
  intros H Hin.
  destruct (ListingClaims.parse_all_in _ _ _ _ _ _ _ _ H Hin) as (r & _ & Hp).
  pose proof (parse_one_filter _ _ _ _ _ _ _ Hp) as Hf.
  apply existsb_exists in Hf. destruct Hf as (gf & Hgf & Hs).
  apply in_map_iff in Hgf. destruct Hgf as (g & <- & Hg).
  apply filter_In in Hg. destruct Hg as [Hg Ht].
  unfold truthy_str in Ht. destruct (nextcloud_groupfolder_name g) as [n|] eqn:En; [|discriminate].
  exists ugs, g, n. split; [reflexivity|]. split; [exact Hg|]. split; [exact En|]. split; [|exact Hs].
  intros ->. discriminate.
Qed.

End ListingExtras.

(** ** Counterexamples *)

Module Counterexamples.
Import PyStr NameGen Ocs Hooks OcsFolders Listing Examples ExtraExamples.

(** C7 as stated fails: when the stored folder id is missing, the save of
    the matched id runs the rename hook, and an exception of its rename
    request leaves [create_group_folder] instead of its return. Group 8,
    "Team Beta", stores the folder name "Team Alpha", which is the mount
    point of folder 5; the hook renames folder 5 to "Team Beta" and the
    server answers 503. *)
Lemma create_group_folder_name_taken_hook_raises :
  let o := create_group_folder false all_digits 0 (nc_server rename_unavailable)
             "Team Alpha" "Team Alpha" beta_on_alpha [beta_on_alpha] false in
  res o = Raise HTTPError /\
  effects o = [Req GetFolders; Save ["nextcloud_groupfolder_id"];
               Req (PostFolderMountpoint 5 "Team Beta")] /\
  nextcloud_groupfolder_name (obj o) = Some "Team Beta"%string.
Proof. vm_compute. repeat split; reflexivity. Qed.


End Counterexamples.

(** ** Witnesses: the claims' theorems applied at concrete inputs *)

Module Witnesses.
Import PyStr NameGen Ocs Hooks OcsFolders Listing Retry Examples.

Lemma submit_always_failing_witness :
  exists e pre,
    (fun _ : nat => @Raise unit (OtherError "connection refused")) (List.length default_retry_wait)
      = Raise e /\
    exec_loop unit (fun _ => Raise (OtherError "connection refused")) default_retry_wait 0
      = (Raise e, pre ++ [LogGiveUp])%list /\
    attempts pre = List.length default_retry_wait + 1 /\
    submit_with_retry_sched unit (fun _ => Raise (OtherError "connection refused")) default_retry_wait
      = (tt, pre ++ [LogGiveUp; LogCallbackException])%list /\
    attempts (snd (submit_with_retry unit (fun _ => Raise (OtherError "connection refused")))) = 7.
Proof.
  apply (RetryClaims.submit_always_failing (fun _ => Raise (OtherError "connection refused"))).
  intro n. exists (OtherError "connection refused"). reflexivity.
Defined.

Lemma generate_field_idempotent_witness :
  generate_group_nextcloud_field false all_digits (nc_server rename_ok) team_db team_alpha_1
    F_nextcloud_group_id true false
  = mkOutcome (Ok "Team Alpha"%string) team_alpha_1 team_db [].
Proof.
  apply (proj1 (NameGenClaims.generate_field_idempotent false all_digits (nc_server rename_ok)
                  team_db team_alpha_1 F_nextcloud_group_id true)).
  - reflexivity.
  - discriminate.
Defined.

Lemma generate_field_unique_witness :
  lower "Team Alpha 2" <> "admin"%string /\
  (forall r v, In r team_db -> gid r <> gid team_alpha_2 ->
     getattr r F_nextcloud_group_id = Some v -> lower v <> lower "Team Alpha 2").
Proof.
  apply (NameGenClaims.generate_field_unique false all_digits (nc_server rename_ok) team_db
           team_alpha_2 F_nextcloud_group_id false false "Team Alpha 2").
  - right. reflexivity.
  - vm_compute. reflexivity.
Defined.

Lemma generate_field_folder_fallback_witness :
  startswith "Folder123" "Folder" = true /\ all_digits "Folder123" = false /\
  "Folder123"%string <> ""%string.
Proof.
  apply (NameGenClaims.generate_field_folder_fallback all_digits (nc_server rename_ok)
           [numeric_group] numeric_group F_nextcloud_group_id false false "Folder123").
  - intros s _ H. exact H.
  - right. reflexivity.
  - vm_compute. reflexivity.
  - right. reflexivity.
Defined.

Lemma create_group_already_exists_witness :
  create_group (nc_server rename_ok) "Team Alpha" = Ok None.
Proof.
  apply (proj1 (OcsClaims.create_group_already_exists (nc_server rename_ok) "Team Alpha")
           (JStr "group exists")).
  vm_compute. reflexivity.
Defined.

Lemma create_group_folder_name_taken_witness :
  let o := create_group_folder false all_digits 0 (nc_server rename_ok) "Team Alpha" "Team Alpha"
             team_alpha_2 team_db false in
  let flagres : result (option json) :=
    if false then Raise (ValueError "A groupfolder with that name already exists") else Ok None in
  hd_error (effects o) = Some (Req GetFolders) /\
  (forall n, ~ In (Req (PostFolders n)) (effects o)) /\
  (folder_id_missing team_alpha_2 = false -> o = mkOutcome flagres team_alpha_2 team_db [Req GetFolders]) /\
  (folder_id_missing team_alpha_2 = true ->
     (exists hs, effects o = Req GetFolders :: Views.save_fid :: hs /\ Forall Views.hook_effect hs) /\
     nextcloud_groupfolder_id (obj o) = Some 5%Z /\
     (exists row, refresh_from_db (rows o) team_alpha_2 = Ok row /\
        nextcloud_groupfolder_id row = Some 5%Z) /\
     (res o = flagres \/
      exists fid' n e, res o = Raise e /\ rename_group_and_group_folder (nc_server rename_ok) fid' n = Raise e /\
        In (Req (PostFolderMountpoint fid' n)) (effects o))).
Proof.
  apply (OcsClaims.create_group_folder_name_taken false all_digits 0 (nc_server rename_ok)
           "Team Alpha" "Team Alpha" team_alpha_2 team_db false folders_kv team_alpha_folder [] 5);
    vm_compute; reflexivity.
Defined.

Lemma parse_response_files_only_witness :
  parse_cloud_files_search_response nc_url "admin" (fun s => s) None None None = Ok [].
Proof.
  apply (proj1 (ListingClaims.parse_response_files_only nc_url "admin" (fun s => s) None None None)).
  reflexivity.
Defined.

End Witnesses.

(** ** Witnesses of the further properties *)

Module ExtraWitnesses.
Import PyStr NameGen Ocs Hooks OcsFolders Listing Retry Provision Sync Widgets Examples ExtraExamples.

Lemma submit_recovers_witness :
  fails_twice 2 = Ok 2 /\
  exists evs,
    exec_loop nat fails_twice default_retry_wait 0 = (Ok 2, evs) /\
    attempts evs = 3 /\ ~ In LogGiveUp evs /\
    submit_with_retry_sched nat fails_twice default_retry_wait = (tt, evs ++ [LogCallbackResult])%list.
Proof.
  split; [reflexivity|].
  apply (RetryExtras.submit_recovers fails_twice default_retry_wait 2 2).
  - intros i Hi. exists (OtherError "connection refused").
    destruct i as [|[|i]]; [reflexivity | reflexivity | lia].
  - reflexivity.
  - simpl. lia.
Defined.

Lemma response_or_raise_ok_witness :
  response_or_raise rename_ok = Ok (ocs_ok (JBool true)) /\
  http_ok rename_ok = true /\ body rename_ok = Some (ocs_ok (JBool true)) /\
  status (ocs_ok (JBool true)) = Ok (JStr "ok").
Proof.
  split; [reflexivity|].
  apply (ResponseExtras.response_or_raise_ok rename_ok (ocs_ok (JBool true))). reflexivity.
Defined.

Lemma create_group_folder_keeps_new_id_witness :
  nextcloud_groupfolder_id (obj (create_group_folder false all_digits 0 (nc_server rename_ok)
                                   "Beta" "Beta" beta_group beta_db false)) = Some 6%Z /\
  exists row, refresh_from_db (rows (create_group_folder false all_digits 0 (nc_server rename_ok)
                                       "Beta" "Beta" beta_group beta_db false)) beta_group = Ok row /\
    nextcloud_groupfolder_id row = Some 6%Z.
Proof.
  apply (OcsExtras.create_group_folder_keeps_new_id false all_digits 0 (nc_server rename_ok)
           "Beta" "Beta" beta_group beta_db false (JObj folders_kv) 6).
  - reflexivity.
  - right. exists folders_kv. split; reflexivity.
  - reflexivity.
  - discriminate.
  - reflexivity.
Defined.

Lemma get_nc_user_id_injective_witness :
  get_nc_user_id 12 = "wechange-12" /\ 12 = 12.
Proof.
  split; [reflexivity|].
  apply (ProvisionExtras.get_nc_user_id_injective 12 12). reflexivity.
Defined.

Lemma joined_task_has_leave_task_witness :
  In (TaskAddUser "wechange-1" "Beta") (user_joined_group_receiver_sub 1 beta_ready) /\
  user_left_group_receiver_sub 1 (with_deactivated_apps beta_ready ["cosinnus_cloud"])
    = [TaskRemoveUser "wechange-1" "Beta"].
Proof.
  split; [left; reflexivity|].
  apply (ProvisionExtras.joined_task_has_leave_task 1 beta_ready "wechange-1" "Beta" ["cosinnus_cloud"]).
  left. reflexivity.
Defined.


Lemma sync_groups_only_ids_groups_members_witness :
  let s := UReq (AddUserToGroup "wechange-1" "Beta") in
  In s (snd (sync_nextcloud_groups users_server false false all_digits (nc_server rename_ok) "admin"
               beta_db [(beta_group, [1])])) /\
  (s = Eff (Save ["nextcloud_group_id"]) \/
   (exists fid n, s = Eff (Req (PostFolderMountpoint fid n))) \/
   s = Eff (Save ["nextcloud_groupfolder_name"]) \/
   s = Eff Refresh \/
   (exists gi, s = Eff (Req (PostGroups gi))) \/
   (exists u gi, s = UReq (AddUserToGroup u gi))).
Proof.
  intro s. split; [vm_compute; right; right; left; reflexivity|].
  apply (SyncExtras.sync_groups_only_ids_groups_members users_server false false all_digits
           (nc_server rename_ok) "admin" beta_db [(beta_group, [1])]).
  vm_compute. right; right; left; reflexivity.
Defined.

Lemma sync_groups_counters_witness :
  fst (fst (sync_nextcloud_groups users_server false false all_digits (nc_server rename_ok) "admin"
              beta_db [(beta_group, [1])])) = Ok (Some (mkGroupCounters 1 1 0 2 1)) /\
  1 = List.length [(beta_group, [1])] /\ 0 = 0 /\ 1 <= 1 /\ (false = true -> 1 = 0).
Proof.
  split; [vm_compute; reflexivity|].
  apply (SyncExtras.sync_groups_counters users_server false false all_digits (nc_server rename_ok)
           "admin" beta_db [(beta_group, [1])] (mkGroupCounters 1 1 0 2 1)).
  vm_compute. reflexivity.
Defined.

Lemma sync_users_only_lists_and_creates_witness :
  In (UReq (CreateUser "wechange-2")) (snd (sync_nextcloud_users users_server false [1; 2])) /\
  (UReq (CreateUser "wechange-2") = UReq ListUsers \/
   exists u, In u [1; 2] /\ UReq (CreateUser "wechange-2") = UReq (CreateUser (get_nc_user_id u))).
Proof.
  split; [vm_compute; right; left; reflexivity|].
  apply (UserSyncExtras.sync_users_only_lists_and_creates users_server false [1; 2]).
  vm_compute. right; left; reflexivity.
Defined.

Lemma sync_users_creates_missing_witness :
  list_all_users users_server = Ok (JList (map JStr ["wechange-1"])) /\
  exists c,
    sync_nextcloud_users users_server false [1; 2] =
      (Ok (Some c), UReq ListUsers :: map (fun u => UReq (CreateUser (get_nc_user_id u)))
                      (filter (fun u => negb (mem (get_nc_user_id u) ["wechange-1"])) [1; 2])) /\
    u_counter c = 2 /\
    u_created c + u_errors c <=
      List.length (filter (fun u => negb (mem (get_nc_user_id u) ["wechange-1"])) [1; 2]).
Proof.
  split; [reflexivity|].
  apply (UserSyncExtras.sync_users_creates_missing users_server ["wechange-1"] [1; 2]).
  reflexivity.
Defined.

Lemma latest_get_data_ok_empty_witness :
  latest_get_data (fun _ => Ok [beta_report]) (JInt 3) beta_ready 5 = Ok ([], 0, false) /\
  ([] : list row) = [] /\ 0 = 0 /\ truthy_str (nextcloud_group_id beta_ready) = true.
Proof.
  split; [vm_compute; reflexivity|].
  apply (WidgetExtras.latest_get_data_ok_empty (fun _ => Ok [beta_report]) (JInt 3) beta_ready 5
           [] 0 false).
  vm_compute. reflexivity.
Defined.

Lemma get_items_one_per_info_doc_witness :
  get_items_from_dataset nc_url json_text json_text [doc_with_info; doc_without_info]
    = Ok [("report.pdf", "Beta", nc_url ++ "/f/42")] /\
  List.length [("report.pdf", "Beta", nc_url ++ "/f/42")]
    = List.length (filter Views.has_info [doc_with_info; doc_without_info]) /\
  (forall doc, In doc [doc_with_info; doc_without_info] -> Views.has_info doc = true ->
     exists l, getitem doc "link" = Ok l).
Proof.
  split; [vm_compute; reflexivity|].
  apply (WidgetExtras.get_items_one_per_info_doc nc_url json_text json_text
           [doc_with_info; doc_without_info]).
  vm_compute. reflexivity.
Defined.

Lemma user_folder_files_under_own_folders_witness :
  list_user_group_folders_files nc_url "admin" (fun s => s) (fun _ => beta_search_doc) (fun s => s)
    (Ok "") (Ok [beta_ready]) None = Ok [beta_report] /\
  exists user_groups g n, Ok [beta_ready] = Ok user_groups /\ In g user_groups /\
    nextcloud_groupfolder_name g = Some n /\ n <> "" /\
    startswith (path beta_report) ("/" ++ n ++ "/") = true.
Proof.
  split; [vm_compute; reflexivity|].
  apply (ListingExtras.user_folder_files_under_own_folders nc_url "admin" (fun s => s)
           (fun _ => beta_search_doc) (fun s => s) (Ok "") (Ok [beta_ready]) None [beta_report]).
  - vm_compute. reflexivity.
  - left. reflexivity.
Defined.

End ExtraWitnesses.
